(** * ARTVIS paper analyzer: a shallow embedding of the backend

    The backend (src/backend/app/analyzer.py and src/backend/app/main.py)
    turns an uploaded PDF into a topic graph and a list of related papers.
    This file embeds the four stages of [PaperAnalyzer] and the
    [/analyze-paper] endpoint of main.py, and proves the properties the
    specification states about them.

    Conventions of the embedding.
    - A Python [str] is a [string]; one [ascii] stands for one character
      (the code points below 256).
    - A Python [int] is a [Z].
    - An exception is a value of [exn]; code that may raise returns a
      [result]; code that also talks to the outside world (the language
      model, the arXiv API) is a function of the world, of type [M].
    - The libraries the code calls (PyPDF2, the OpenAI client, json,
      requests, xml.etree's parser, str() of an exception) are the fields of
      the class [Collaborators]; what the code does with their results is
      written out.
    - The topic dictionaries that come back from the language model keep
      their optional keys: a key may be absent, a value that is present has
      the type the prompt asks for. *)

From Stdlib Require Import String Ascii List ZArith NArith Lia Bool.
From Stdlib Require Strings.Byte.
Import ListNotations.

Open Scope list_scope.
Open Scope string_scope.

(** ** Exceptions and results *)

Inductive exn : Type :=
| KeyError (key : string)
| IndexError (msg : string)
| AttributeError (msg : string)
| ValueError (msg : string)
| JSONDecodeError (msg : string)
| ParseError (msg : string)
| PdfReadError (msg : string)
| RequestException (msg : string)
| APIError (msg : string)
| HTTPException (status_code : Z) (detail : string).

Inductive result (A : Type) : Type :=
| Ok (a : A)
| Raise (e : exn).

Arguments Ok {A} a.
Arguments Raise {A} e.

Definition bind {A B : Type} (r : result A) (k : A -> result B) : result B :=
  match r with
  | Ok a => k a
  | Raise e => Raise e
  end.

Notation "'let?' x ':=' e 'in' k" := (bind e (fun x => k))
  (at level 10, x name, e at level 100, k at level 200).

(** [for x in xs: body], the loop state passed along; an exception in the
    body leaves the loop. *)
Fixpoint for_in {A S : Type} (xs : list A) (body : A -> S -> result S) (s : S)
  : result S :=
  match xs with
  | [] => Ok s
  | x :: rest => let? s' := body x s in for_in rest body s'
  end.

(** A list comprehension [[f(x) for x in xs]] whose element expression may
    raise. *)
Fixpoint comprehension {A B : Type} (f : A -> result B) (xs : list A)
  : result (list B) :=
  match xs with
  | [] => Ok []
  | x :: rest =>
      let? y := f x in
      let? ys := comprehension f rest in
      Ok (y :: ys)
  end.

(** ** Python strings *)

Module Py.

(** [str.isspace] on the code points below 256. *)
Definition isspace (c : ascii) : bool :=
  let n := N_of_ascii c in
  ((9 <=? n) && (n <=? 13) || (28 <=? n) && (n <=? 32)
   || (n =? 133) || (n =? 160))%N.

Fixpoint lstrip (s : string) : string :=
  match s with
  | EmptyString => EmptyString
  | String c rest => if isspace c then lstrip rest else s
  end.

Fixpoint rstrip (s : string) : string :=
  match s with
  | EmptyString => EmptyString
  | String c rest =>
      match rstrip rest with
      | EmptyString => if isspace c then EmptyString else String c EmptyString
      | kept => String c kept
      end
  end.

(** [s.strip()] *)
Definition strip (s : string) : string := rstrip (lstrip s).

(** [s[:n]] *)
Fixpoint slice_to (n : nat) (s : string) : string :=
  match n, s with
  | O, _ => EmptyString
  | S _, EmptyString => EmptyString
  | S n', String c rest => String c (slice_to n' rest)
  end.

(** [s.split(sep)] for a one-character separator: never an empty list. *)
Fixpoint split (sep : ascii) (s : string) : list string :=
  match s with
  | EmptyString => [EmptyString]
  | String c rest =>
      if Ascii.eqb c sep then EmptyString :: split sep rest
      else match split sep rest with
           | piece :: pieces => String c piece :: pieces
           | [] => [String c EmptyString]
           end
  end.

(** [s.endswith(suffix)] *)
Definition endswith (s suffix : string) : bool :=
  let n := String.length s in
  let m := String.length suffix in
  (m <=? n)%nat && String.eqb (substring (n - m) m s) suffix.

(** [urllib.parse.quote(s)]: the UTF-8 bytes of [s], every byte outside
    the letters, the digits and [_.-~/] written as [%XX]. *)
Definition always_safe (n : N) : bool :=
  ((65 <=? n) && (n <=? 90) || (97 <=? n) && (n <=? 122)
   || (48 <=? n) && (n <=? 57)
   || (n =? 95) || (n =? 46) || (n =? 45) || (n =? 126))%N.

Definition hex_digit (n : N) : ascii :=
  ascii_of_N (if (n <? 10)%N then 48 + n else 55 + n)%N.

Definition percent (b : N) : string :=
  String "%" (String (hex_digit (b / 16)) (String (hex_digit (b mod 16)) EmptyString)).

Definition utf8 (c : ascii) : list N :=
  let n := N_of_ascii c in
  if (n <? 128)%N then [n] else [192 + n / 64; 128 + n mod 64]%N.

Definition quote_byte (b : N) : string :=
  if always_safe b || (b =? 47)%N then String (ascii_of_N b) EmptyString
  else percent b.

Fixpoint quote (s : string) : string :=
  match s with
  | EmptyString => EmptyString
  | String c rest =>
      fold_right (fun b acc => quote_byte b ++ acc) (quote rest) (utf8 c)
  end.

End Py.

(** ** xml.etree.ElementTree: parsed documents *)

Module ET.

(** An element: its qualified tag, its text ([None] when the element has no
    text) and its children in document order. *)
#[warning="-register-all"]
Inductive Element : Type :=
| Elem (tag : string) (text : option string) (children : list Element).

Definition tag (e : Element) : string :=
  match e with Elem t _ _ => t end.

Definition text (e : Element) : option string :=
  match e with Elem _ t _ => t end.

Definition children (e : Element) : list Element :=
  match e with Elem _ _ cs => cs end.

(** The namespace map [ns] of the source, applied to a prefixed name. *)
Definition atom (name : string) : string :=
  "{http://www.w3.org/2005/Atom}" ++ name.

(** [e.find(path)] for a one-step path: the first child with the tag. *)
Definition find (qname : string) (e : Element) : option Element :=
  List.find (fun c => String.eqb (tag c) qname) (children e).

(** [e.findall(path)] for a one-step path: the children with the tag. *)
Definition findall (qname : string) (e : Element) : list Element :=
  filter (fun c => String.eqb (tag c) qname) (children e).

(** The elements below [e], in document order, [e] itself left out. *)
Fixpoint descendants (e : Element) : list Element :=
  match e with
  | Elem _ _ cs =>
      (fix below (l : list Element) : list Element :=
         match l with
         | [] => []
         | c :: rest => ((c :: descendants c) ++ below rest)%list
         end) cs
  end.

(** [e.findall('.//name')]: the descendants with the tag. *)
Definition findall_descendants (qname : string) (e : Element) : list Element :=
  filter (fun c => String.eqb (tag c) qname) (descendants e).

End ET.

(** ** Computations that talk to the outside world *)

Definition M (World A : Type) : Type := World -> result A * World.

Definition ret {World A : Type} (a : A) : M World A := fun w => (Ok a, w).

Definition raise {World A : Type} (e : exn) : M World A := fun w => (Raise e, w).

Definition lift {World A : Type} (r : result A) : M World A := fun w => (r, w).

Definition bindM {World A B : Type} (m : M World A) (k : A -> M World B)
  : M World B :=
  fun w =>
    match m w with
    | (Ok a, w') => k a w'
    | (Raise e, w') => (Raise e, w')
    end.

Notation "'let!' x ':=' e 'in' k" := (bindM e (fun x => k))
  (at level 10, x name, e at level 100, k at level 200).

(** [try: body / except Exception as e: handler(e)] *)
Definition try_except {World A : Type} (body : M World A)
  (handler : exn -> M World A) : M World A :=
  fun w =>
    match body w with
    | (Ok a, w') => (Ok a, w')
    | (Raise e, w') => handler e w'
    end.

(** ** The data of the analyzer *)

(** A topic or subtopic object of the language model's reply.  The code
    reads three keys; each may be absent. *)
#[warning="-register-all"]
Inductive topic_dict : Type :=
  Dict { topic : option string;
         importance : option Z;
         subtopics : option (list topic_dict) }.

(** [d[key]] *)
Definition getitem {A : Type} (key : string) (field : option A) : result A :=
  match field with
  | Some v => Ok v
  | None => Raise (KeyError key)
  end.

(** [d.get(key, default)] *)
Definition get {A : Type} (field : option A) (default : A) : A :=
  match field with
  | Some v => v
  | None => default
  end.

(** What [json.loads] returns: the code only asks whether it is a list. *)
Inductive json_value : Type :=
| JList (items : list topic_dict)
| JDict
| JStr (s : string)
| JInt (z : Z)
| JFloat
| JBool (b : bool)
| JNull.

(** A related paper, the dictionary appended to [related_papers]. *)
Record paper : Type := {
  paper_id : string;
  paper_title : string;
  summary : string;
  published : string;
  authors : list string;
  paper_topic : string
}.

(** A node and a link of the graph. *)
Record node : Type := {
  node_id : string;
  node_name : string;
  node_val : Z;
  node_group : string
}.

Record link : Type := {
  link_source : string;
  link_target : string;
  link_value : Z
}.

Record graph : Type := {
  nodes : list node;
  links : list link
}.

(** The response of [requests.get]. *)
Record Response : Type := {
  status_code : Z;
  response_text : string
}.

(** The upload the endpoint receives: its name and what [file.read()]
    returns. *)
Record UploadFile : Type := {
  filename : string;
  contents : list Byte.byte
}.

(** ** The libraries behind the analyzer *)

Class Collaborators (World : Type) : Type := {
  (** [PyPDF2.PdfReader(...)]: the pages, each with the outcome of its
      [extract_text()]. *)
  PdfReader : list Byte.byte -> result (list (result string));
  (** [client.chat.completions.create(model, messages)] with the fixed system
      prompt: the [message.content] of each choice. *)
  chat_completions_create :
    string -> string -> World -> result (list (option string)) * World;
  (** [json.loads] *)
  json_loads : string -> result json_value;
  (** [requests.get(url, timeout)] *)
  requests_get : string -> Z -> World -> result Response * World;
  (** [ET.fromstring] *)
  ET_fromstring : string -> result ET.Element;
  (** [str(e)] *)
  str_exn : exn -> string
}.

(** ** analyzer.py *)

Module Analyzer.

Section PaperAnalyzer.

Context {World : Type} {libs : Collaborators World}.

Definition arxiv_api : string := "http://export.arxiv.org/api/query".

Definition model : string := "gpt-3.5-turbo".

(** [extract_text_from_pdf]: the text of the first 10 pages; a page whose
    extraction raises is left out. *)
Definition extract_text_from_pdf (pdf_file : list Byte.byte) : result string :=
  let? pages := PdfReader pdf_file in
  let max_pages := Nat.min (List.length pages) 10 in
  let text :=
    fold_left
      (fun text page =>
         match page with
         | Ok page_text => text ++ page_text
         | Raise _ => text
         end)
      (firstn max_pages pages) EmptyString in
  if String.eqb (Py.strip text) EmptyString
  then Raise (ValueError "no text could be extracted from the pdf")
  else Ok text.

(** [extract_topics]: one call of the model on the first 4000 characters;
    the handler of the source logs and raises the exception again. *)
Definition extract_topics (text : string) : M World (list topic_dict) :=
  try_except
    (let truncated_text := Py.slice_to 4000 text in
     let! choices := chat_completions_create model truncated_text in
     let! content :=
       lift (match choices with
             | c :: _ => Ok c
             | [] => Raise (IndexError "list index out of range")
             end) in
     let! result :=
       lift (match content with
             | Some s => Ok (Py.strip s)
             | None =>
                 Raise (AttributeError "'NoneType' object has no attribute 'strip'")
             end) in
     let! topics := lift (json_loads result) in
     match topics with
     | JList items => ret items
     | _ => raise (ValueError "openai did not return a list of topics")
     end)
    (fun e => raise e).

(** [elem.text.method(...)] when [elem.text] may be [None]. *)
Definition text_then (method : string) (f : string -> string) (elem : ET.Element)
  : result string :=
  match ET.text elem with
  | Some t => Ok (f t)
  | None =>
      Raise (AttributeError ("'NoneType' object has no attribute '" ++ method ++ "'"))
  end.

(** The body of the loop over the entries of one response, up to the
    dictionary it appends. *)
Definition parse_entry (entry : ET.Element) (topic_name : string) : result paper :=
  let paper_id_elem := ET.find (ET.atom "id") entry in
  let? paper_id :=
    match paper_id_elem with
    | Some elem => text_then "split" (fun t => last (Py.split "/" t) EmptyString) elem
    | None => Ok "id not found"
    end in
  let paper_title_elem := ET.find (ET.atom "title") entry in
  let? paper_title :=
    match paper_title_elem with
    | Some elem => text_then "strip" Py.strip elem
    | None => Ok "title not found"
    end in
  let summary_elem := ET.find (ET.atom "summary") entry in
  let? summary :=
    match summary_elem with
    | Some elem => text_then "strip" Py.strip elem
    | None => Ok "no abstract available"
    end in
  let published_elem := ET.find (ET.atom "published") entry in
  let? published :=
    match published_elem with
    | Some elem => text_then "split" (fun t => hd EmptyString (Py.split "T" t)) elem
    | None => Ok "date not available"
    end in
  let author_elements := ET.findall (ET.atom "author") entry in
  let? authors :=
    for_in author_elements
      (fun author authors =>
         let name_elem := ET.find (ET.atom "name") author in
         match name_elem with
         | Some elem =>
             let? name := text_then "strip" Py.strip elem in
             Ok (authors ++ [name])%list
         | None => Ok authors
         end)
      [] in
  Ok {| paper_id := paper_id;
        paper_title := paper_title;
        summary := summary;
        published := published;
        authors := authors;
        paper_topic := topic_name |}.

(** [for entry in entries: try: ... except Exception: continue] *)
Definition add_entries (entries : list ET.Element) (topic_name : string)
  (related_papers : list paper) : list paper :=
  fold_left
    (fun related_papers entry =>
       match parse_entry entry topic_name with
       | Ok p => (related_papers ++ [p])%list
       | Raise _ => related_papers
       end)
    entries related_papers.

(** The body of the [try] of the loop over the queries.  Whatever can raise
    in it (the request, the XML parser) comes before the first append, so
    the list it returns is the list the source holds when the body ends. *)
Definition search_topic (topic_name : string) (related_papers : list paper)
  : M World (list paper) :=
  let query := Py.quote topic_name in
  let! response :=
    requests_get
      (arxiv_api ++ "?search_query=all:" ++ query ++ "&start=0&max_results=3") 10 in
  if (status_code response =? 200)%Z then
    let! root := lift (ET_fromstring (response_text response)) in
    let entries := ET.findall_descendants (ET.atom "entry") root in
    ret (add_entries entries topic_name related_papers)
  else ret related_papers.

(** [for topic_name in all_topics: try: ... except Exception: continue] *)
Fixpoint search_all (all_topics : list string) (related_papers : list paper)
  : M World (list paper) :=
  match all_topics with
  | [] => ret related_papers
  | topic_name :: rest =>
      let! related_papers' :=
        try_except (search_topic topic_name related_papers)
                   (fun _ => ret related_papers) in
      search_all rest related_papers'
  end.

(** The queries: the names of the topics, then the names of the subtopics
    of each topic. *)
Definition all_topics_of (topics : list topic_dict) : result (list string) :=
  let? all_topics := comprehension (fun t => getitem "topic" (topic t)) topics in
  for_in topics
    (fun t all_topics =>
       let? names :=
         comprehension (fun subtopic => getitem "topic" (topic subtopic))
                       (get (subtopics t) []) in
       Ok (all_topics ++ names)%list)
    all_topics.

Definition find_related_papers (topics : list topic_dict) : M World (list paper) :=
  let related_papers := [] in
  let! all_topics := lift (all_topics_of topics) in
  search_all all_topics related_papers.

End PaperAnalyzer.

(** [create_graph_data]: the main node, then for each topic its node and
    link and those of its subtopics.  The handler of the source logs and
    raises the exception again. *)
Definition short_title_of (main_paper_title : string) : string :=
  if (50 <? String.length main_paper_title)%nat
  then Py.slice_to 50 main_paper_title ++ "..."
  else main_paper_title.

Definition add_subtopic (main_topic_id : string) (subtopic : topic_dict)
  (g : list node * list link) : result (list node * list link) :=
  let (nodes, links) := g in
  let? subtopic_name := getitem "topic" (topic subtopic) in
  let subtopic_id := "subtopic_" ++ main_topic_id ++ "_" ++ subtopic_name in
  let? subtopic_importance := getitem "importance" (importance subtopic) in
  Ok ((nodes ++ [{| node_id := subtopic_id;
                    node_name := subtopic_name;
                    node_val := subtopic_importance;
                    node_group := "subtopic" |}])%list,
      (links ++ [{| link_source := main_topic_id;
                    link_target := subtopic_id;
                    link_value := subtopic_importance |}])%list).

Definition add_topic (t : topic_dict) (g : list node * list link)
  : result (list node * list link) :=
  let (nodes, links) := g in
  let? topic_name := getitem "topic" (topic t) in
  let main_topic_id := "topic_" ++ topic_name in
  let? topic_importance := getitem "importance" (importance t) in
  let nodes := (nodes ++ [{| node_id := main_topic_id;
                             node_name := topic_name;
                             node_val := topic_importance * 2;
                             node_group := "topic" |}])%list in
  let links := (links ++ [{| link_source := "main";
                             link_target := main_topic_id;
                             link_value := topic_importance |}])%list in
  for_in (get (subtopics t) []) (add_subtopic main_topic_id) (nodes, links).

Definition create_graph_data (main_paper_title : string)
  (topics : list topic_dict) (related_papers : list paper)
  : result (graph * list paper) :=
  let short_title := short_title_of main_paper_title in
  let nodes := [{| node_id := "main";
                   node_name := short_title;
                   node_val := 20;
                   node_group := "main" |}] in
  let links := [] in
  let? g := for_in topics add_topic (nodes, links) in
  Ok ({| nodes := fst g; links := snd g |}, related_papers).

End Analyzer.

(** ** main.py *)

Module Main.

Section Endpoint.

Context {World : Type} {libs : Collaborators World}.

(** [POST /analyze-paper] *)
Definition analyze_paper (file : UploadFile) : M World (graph * list paper) :=
  if negb (Py.endswith (filename file) ".pdf")
  then raise (HTTPException 400 "Only PDF files are accepted")
  else
    try_except
      (let contents := contents file in
       if (10 * 1024 * 1024 <? Z.of_nat (List.length contents))%Z
       then raise (HTTPException 400 "File too large. Please upload a smaller PDF")
       else
         let! text := lift (Analyzer.extract_text_from_pdf contents) in
         if String.eqb (Py.strip text) EmptyString
         then raise (HTTPException 400
           "Could not extract text from PDF. Please make sure it's not scanned or corrupted")
         else
           let! topics := Analyzer.extract_topics text in
           match topics with
           | [] => raise (HTTPException 500 "Could not extract topics from the paper")
           | _ :: _ =>
               let! related_papers := Analyzer.find_related_papers topics in
               let! graph_data :=
                 lift (Analyzer.create_graph_data (filename file) topics related_papers) in
               ret graph_data
           end)
      (fun e => raise (HTTPException 500 (str_exn e))).

(** [GET /health] *)
Definition health_check : string * string := ("status", "healthy").

End Endpoint.

End Main.

(** ** The specification's data model

    A topic with its name, its importance and its subtopics, all present:
    what the code reads from a dictionary when no key it needs is missing. *)

Record Subtopic : Type := {
  sub_name : string;
  sub_importance : Z
}.

Record Topic : Type := {
  name : string;
  topic_importance : Z;
  topic_subtopics : list Subtopic
}.

Definition read_subtopic (d : topic_dict) : result Subtopic :=
  let? n := getitem "topic" (topic d) in
  let? i := getitem "importance" (importance d) in
  Ok {| sub_name := n; sub_importance := i |}.

Definition read_topic (d : topic_dict) : result Topic :=
  let? n := getitem "topic" (topic d) in
  let? i := getitem "importance" (importance d) in
  let? subs := comprehension read_subtopic (get (subtopics d) []) in
  Ok {| name := n; topic_importance := i; topic_subtopics := subs |}.

(** The nodes and links a topic stands for. *)
Definition main_node (main_paper_title : string) : node :=
  {| node_id := "main";
     node_name := Analyzer.short_title_of main_paper_title;
     node_val := 20;
     node_group := "main" |}.

Definition topic_id (t : Topic) : string := "topic_" ++ name t.

Definition subtopic_id (parent_id : string) (s : Subtopic) : string :=
  "subtopic_" ++ parent_id ++ "_" ++ sub_name s.

Definition topic_node (t : Topic) : node :=
  {| node_id := topic_id t;
     node_name := name t;
     node_val := topic_importance t * 2;
     node_group := "topic" |}.

Definition topic_link (t : Topic) : link :=
  {| link_source := "main";
     link_target := topic_id t;
     link_value := topic_importance t |}.

Definition subtopic_node (parent_id : string) (s : Subtopic) : node :=
  {| node_id := subtopic_id parent_id s;
     node_name := sub_name s;
     node_val := sub_importance s;
     node_group := "subtopic" |}.

Definition subtopic_link (parent_id : string) (s : Subtopic) : link :=
  {| link_source := parent_id;
     link_target := subtopic_id parent_id s;
     link_value := sub_importance s |}.

Definition topic_nodes (t : Topic) : list node :=
  topic_node t :: map (subtopic_node (topic_id t)) (topic_subtopics t).

Definition topic_links (t : Topic) : list link :=
  topic_link t :: map (subtopic_link (topic_id t)) (topic_subtopics t).

(** A dictionary with the two keys every node needs. *)
Definition has_keys (d : topic_dict) : bool :=
  match topic d, importance d with
  | Some _, Some _ => true
  | _, _ => false
  end.

(** A valid topic: its keys are there, and those of its subtopics. *)
Definition valid_topic (t : topic_dict) : bool :=
  has_keys t && forallb has_keys (get (subtopics t) []).

Definition total_subtopics (topics : list topic_dict) : nat :=
  list_sum (map (fun t => List.length (get (subtopics t) [])) topics).

(** ** Notions the properties are stated with *)

Definition is_main (n : node) : bool := String.eqb (node_group n) "main".

(** What a node stands for: the paper, a topic, or a subtopic of a topic. *)
Inductive item : Type :=
| IMain
| ITopic (n : string)
| ISubtopic (parent n : string).

Definition item_id (i : item) : string :=
  match i with
  | IMain => "main"
  | ITopic n => "topic_" ++ n
  | ISubtopic parent n => "subtopic_" ++ ("topic_" ++ parent) ++ "_" ++ n
  end.

Definition topic_items (t : Topic) : list item :=
  ITopic (name t) :: map (fun s => ISubtopic (name t) (sub_name s)) (topic_subtopics t).

(** [q] is [p], an underscore, and more text. *)
Definition extends (p q : string) : Prop := exists r : string, q = p ++ "_" ++ r.

(** The names of the dictionaries that have one. *)
Definition topic_names (ds : list topic_dict) : list string :=
  flat_map (fun d => match topic d with Some n => [n] | None => [] end) ds.

(** No name is another name, an underscore, and more text. *)
Definition independent_names (names : list string) : bool :=
  forallb (fun p => forallb (fun q => negb (String.prefix (p ++ "_") q)) names) names.

(** A topic's nodes, each with the link that ends at it. *)
Definition topic_entries (t : Topic) : list (node * link) :=
  (topic_node t, topic_link t)
    :: map (fun s => (subtopic_node (topic_id t) s, subtopic_link (topic_id t) s))
           (topic_subtopics t).

Definition has_name (d : topic_dict) : bool :=
  match topic d with
  | Some _ => true
  | None => false
  end.

(** A topic with its name, whose subtopics have theirs. *)
Definition named_topic (t : topic_dict) : bool :=
  has_name t && forallb has_name (get (subtopics t) []).

(** The queries in flattening order: every topic name in input order, then
    every subtopic name in input order, duplicates kept. *)
Definition flatten (topics : list topic_dict) : list string :=
  (topic_names topics
   ++ flat_map (fun t => topic_names (get (subtopics t) [])) topics)%list.

(** The entries of a response that parse, in the order of the response. *)
Definition parsed_entries (topic_name : string) (entries : list ET.Element)
  : list paper :=
  flat_map
    (fun entry =>
       match Analyzer.parse_entry entry topic_name with
       | Ok p => [p]
       | Raise _ => []
       end)
    entries.

Section SearchModel.

Context {World : Type} {libs : Collaborators World}.

Definition query_url (topic_name : string) : string :=
  Analyzer.arxiv_api ++ "?search_query=all:" ++ Py.quote topic_name
    ++ "&start=0&max_results=3".

(** What the provider answers when the queries are sent one after the
    other, and the world they leave. *)
Fixpoint provider_replies (queries : list string) (w : World)
  : list (result Response) * World :=
  match queries with
  | [] => ([], w)
  | q :: rest =>
      let (reply, w') := requests_get (query_url q) 10 w in
      let (replies, w'') := provider_replies rest w' in
      (reply :: replies, w'')
  end.

(** The papers one query contributes, given the provider's reply to it. *)
Definition query_papers (topic_name : string) (reply : result Response)
  : list paper :=
  match reply with
  | Raise _ => []
  | Ok response =>
      if (status_code response =? 200)%Z then
        match ET_fromstring (response_text response) with
        | Ok root =>
            parsed_entries topic_name
              (ET.findall_descendants (ET.atom "entry") root)
        | Raise _ => []
        end
      else []
  end.

Definition contributions (queries : list string) (replies : list (result Response))
  : list paper :=
  concat (map (fun qr => query_papers (fst qr) (snd qr)) (combine queries replies)).

End SearchModel.

(** The child [qname] of [e], when there is one, has text. *)
Definition text_present (qname : string) (e : ET.Element) : bool :=
  match ET.find qname e with
  | Some elem =>
      match ET.text elem with
      | Some _ => true
      | None => false
      end
  | None => true
  end.

(** Every field of the entry that is there has text. *)
Definition well_texted (entry : ET.Element) : bool :=
  text_present (ET.atom "id") entry
  && text_present (ET.atom "title") entry
  && text_present (ET.atom "summary") entry
  && text_present (ET.atom "published") entry
  && forallb (text_present (ET.atom "name")) (ET.findall (ET.atom "author") entry).

Fixpoint all_space (s : string) : bool :=
  match s with
  | EmptyString => true
  | String c rest => Py.isspace c && all_space rest
  end.

(** The status of the response: FastAPI answers an [HTTPException] with its
    status code. *)
Definition is_client_error (e : exn) : bool :=
  match e with
  | HTTPException code _ => ((400 <=? code) && (code <? 500))%Z
  | _ => false
  end.

(** ** Sample inputs and a world to run the analyzer in *)

(** Two topics with distinct names, each with one subtopic, whose subtopic
    nodes get the same id: "a" with subtopic "b_c", "a_b" with subtopic "c". *)
Definition colliding_topics : list topic_dict :=
  [ Dict (Some "a") (Some 5%Z) (Some [Dict (Some "b_c") (Some 3%Z) None]);
    Dict (Some "a_b") (Some 4%Z) (Some [Dict (Some "c") (Some 2%Z) None]) ].

(** A PDF of 15 MiB. *)
Definition oversized_upload : UploadFile :=
  {| filename := "paper.pdf";
     contents := repeat Byte.x00 (Z.to_nat (15 * 1024 * 1024)) |}.

(** The topics of the prompt's example, completed to five. *)
Definition sample_topics : list topic_dict :=
  [ Dict (Some "neural networks") (Some 9%Z)
      (Some [ Dict (Some "convolutional neural networks in image processing")
                   (Some 8%Z) None;
              Dict (Some "recurrent neural networks in speech recognition")
                   (Some 7%Z) None ]);
    Dict (Some "computer vision for autonomous driving") (Some 7%Z)
      (Some [ Dict (Some "image classification for object detection")
                   (Some 6%Z) None ]);
    Dict (Some "optimization") (Some 6%Z) None;
    Dict (Some "generalization") (Some 5%Z) (Some []);
    Dict (Some "benchmark datasets") (Some 4%Z)
      (Some [ Dict (Some "data augmentation") (Some 3%Z) None;
              Dict (Some "label noise") (Some 2%Z) None;
              Dict (Some "dataset bias") (Some 1%Z) None ]) ].

(** An entry without a title. *)
Definition entry_without_title : ET.Element :=
  ET.Elem (ET.atom "entry") None
    [ ET.Elem (ET.atom "id") (Some "http://arxiv.org/abs/2101.00001v1") [];
      ET.Elem (ET.atom "summary") (Some "  We study gradient methods. ") [];
      ET.Elem (ET.atom "published") (Some "2021-01-04T18:59:59Z") [];
      ET.Elem (ET.atom "author") None
        [ ET.Elem (ET.atom "name") (Some "A. Author") [] ] ].

(** An entry whose title element is empty. *)
Definition entry_with_empty_title : ET.Element :=
  ET.Elem (ET.atom "entry") None
    [ ET.Elem (ET.atom "id") (Some "http://arxiv.org/abs/2101.00002v1") [];
      ET.Elem (ET.atom "title") None [] ].

Definition sample_feed : ET.Element :=
  ET.Elem (ET.atom "feed") None
    [ ET.Elem (ET.atom "title") (Some "ArXiv Query") [];
      entry_without_title;
      entry_with_empty_title ].

(** Stand-ins for the libraries.  The world is the list of the URLs
    requested so far; the second request times out, every other request is
    answered with [sample_feed]; the model replies [reply]; the JSON parser
    knows the empty list and the empty object. *)
Definition sample_libs (reply : string) : Collaborators (list string) :=
  {| PdfReader := fun _ => Ok [Ok "Paper about neural networks and optimization."];
     chat_completions_create := fun _ _ w => (Ok [Some reply], w);
     json_loads := fun s =>
       if String.eqb s "[]" then Ok (JList [])
       else if String.eqb s "{}" then Ok JDict
       else Raise (JSONDecodeError "Expecting value: line 1 column 1 (char 0)");
     requests_get := fun url _ w =>
       (if Nat.eqb (List.length w) 1
        then Raise (RequestException "Read timed out.")
        else Ok {| status_code := 200; response_text := "<feed/>" |},
        (w ++ [url])%list);
     ET_fromstring := fun _ => Ok sample_feed;
     str_exn := fun e =>
       match e with
       | HTTPException _ detail => detail
       | KeyError msg | IndexError msg | AttributeError msg | ValueError msg
       | JSONDecodeError msg | ParseError msg | PdfReadError msg
       | RequestException msg | APIError msg => msg
       end |}.

(** Three queries: a topic, a second topic, and a subtopic of the first. *)
Definition three_queries : list topic_dict :=
  [ Dict (Some "neural networks") (Some 9%Z)
      (Some [Dict (Some "gradient descent") (Some 6%Z) None]);
    Dict (Some "optimization") (Some 7%Z) None ].

Definition sample_graph : graph :=
  Eval vm_compute in
    match Analyzer.create_graph_data "paper.pdf" sample_topics [] with
    | Ok (g, _) => g
    | Raise _ => {| nodes := []; links := [] |}
    end.

(** ** Notions for the properties of the rest of the code *)

(** The texts of the pages whose extraction returns, one after the other. *)
Fixpoint page_texts (pages : list (result string)) : string :=
  match pages with
  | [] => EmptyString
  | Ok page_text :: rest => page_text ++ page_texts rest
  | Raise _ :: rest => page_texts rest
  end.

(** [c in s] *)
Fixpoint has_char (c : ascii) (s : string) : bool :=
  match s with
  | EmptyString => false
  | String a rest => Ascii.eqb a c || has_char c rest
  end.




(** [sep.join(pieces)] *)
Fixpoint join (sep : ascii) (pieces : list string) : string :=
  match pieces with
  | [] => EmptyString
  | piece :: rest =>
      match rest with
      | [] => piece
      | _ :: _ => piece ++ String sep (join sep rest)
      end
  end.

(** [s] neither starts nor ends with whitespace. *)
Definition trimmed (s : string) : Prop :=
  (forall c rest, s = String c rest -> Py.isspace c = false) /\
  (forall body c, s = body ++ String c EmptyString -> Py.isspace c = false).

(** The names of the author elements of an entry that have one. *)
Definition named_authors (entry : ET.Element) : list string :=
  flat_map
    (fun author =>
       match ET.find (ET.atom "name") author with
       | Some elem =>
           match ET.text elem with
           | Some t => [Py.strip t]
           | None => []
           end
       | None => []
       end)
    (ET.findall (ET.atom "author") entry).

(** Stand-ins for the libraries where the PDF matters: every byte of the
    file is a page whose text is that byte; a zero byte is a page whose
    extraction raises. *)
Definition paged_libs : Collaborators unit :=
  {| PdfReader := fun pdf_file =>
       Ok (map (fun b =>
                  if Byte.eqb b Byte.x00
                  then Raise (PdfReadError "could not read the page")
                  else Ok (String (ascii_of_byte b) EmptyString))
               pdf_file);
     chat_completions_create := fun _ _ w => (Ok [], w);
     json_loads := fun _ => Ok JNull;
     requests_get := fun _ _ w => (Raise (RequestException "no network"), w);
     ET_fromstring := fun _ => Raise (ParseError "no element found");
     str_exn := fun _ => "error" |}.

(** A text of 4000 characters. *)
Definition long_text : string :=
  string_of_list_ascii (repeat "a"%char 4000).

(** What [entry_without_title] is parsed into for the query "neural networks". *)
Definition paper_without_title : paper :=
  {| paper_id := "2101.00001v1"; paper_title := "title not found";
     summary := "We study gradient methods."; published := "2021-01-04";
     authors := ["A. Author"]; paper_topic := "neural networks" |}.

(** Stand-ins for the libraries where the whole pipeline runs: those of
    [sample_libs], with a JSON parser that reads any text as the list
    [three_queries]. *)
Definition pipeline_libs : Collaborators (list string) :=
  {| PdfReader := PdfReader (Collaborators := sample_libs "[]");
     chat_completions_create :=
       chat_completions_create (Collaborators := sample_libs "[]");
     json_loads := fun _ => Ok (JList three_queries);
     requests_get := requests_get (Collaborators := sample_libs "[]");
     ET_fromstring := ET_fromstring (Collaborators := sample_libs "[]");
     str_exn := str_exn (Collaborators := sample_libs "[]") |}.

(** A small PDF. *)
Definition small_upload : UploadFile :=
  {| filename := "paper.pdf"; contents := [Byte.x25; Byte.x50; Byte.x44; Byte.x46] |}.

(** The response to [small_upload] in the world of [pipeline_libs]. *)
Definition small_upload_response : graph * list paper :=
  Eval vm_compute in
    match Main.analyze_paper (libs := pipeline_libs) small_upload [] with
    | (Ok r, _) => r
    | (Raise _, _) => ({| nodes := []; links := [] |}, [])
    end.

(** The world [small_upload] leaves behind with [pipeline_libs]. *)
Definition small_upload_world : list string :=
  Eval vm_compute in
    snd (Main.analyze_paper (libs := pipeline_libs) small_upload []).

(** The papers found for [three_queries] with [sample_libs], and the world
    after the search. *)
Definition three_queries_papers : list paper :=
  Eval vm_compute in
    match Analyzer.find_related_papers (libs := sample_libs "[]") three_queries [] with
    | (Ok papers, _) => papers
    | (Raise _, _) => []
    end.

Definition three_queries_world : list string :=
  Eval vm_compute in
    snd (Analyzer.find_related_papers (libs := sample_libs "[]") three_queries []).

(** A file of ten pages, and one of twelve that starts with the same ten. *)
Definition ten_pages : list Byte.byte := repeat Byte.x61 10.

Definition twelve_pages : list Byte.byte := (ten_pages ++ [Byte.x62; Byte.x63])%list.

(** An upload whose name ends in upper case. *)
Definition upper_case_upload : UploadFile :=
  {| filename := "paper.PDF"; contents := [] |}.

(** * Properties *)

(** ** The loops of [create_graph_data] *)

Lemma for_in_add_subtopic (parent_id : string) (subs : list topic_dict) :
  forall (ns : list node) (ls : list link),
    for_in subs (Analyzer.add_subtopic parent_id) (ns, ls) =
    let? items := comprehension read_subtopic subs in
    Ok ((ns ++ map (subtopic_node parent_id) items)%list,
        (ls ++ map (subtopic_link parent_id) items)%list).
Proof.
  induction subs as [|d subs IH]; intros ns ls; simpl.
  - now rewrite !app_nil_r.
  - destruct d as [[n|] [i|] ss]; simpl; try reflexivity.
    rewrite IH.
    destruct (comprehension read_subtopic subs) as [items|e]; simpl; [|reflexivity].
    now rewrite <- !app_assoc.
Qed.

Lemma for_in_add_topic (topics : list topic_dict) :
  forall (ns : list node) (ls : list link),
    for_in topics Analyzer.add_topic (ns, ls) =
    let? ts := comprehension read_topic topics in
    Ok ((ns ++ flat_map topic_nodes ts)%list,
        (ls ++ flat_map topic_links ts)%list).
Proof.
  induction topics as [|d topics IH]; intros ns ls; simpl.
  - now rewrite !app_nil_r.
  - set (rest := comprehension read_topic topics) in *.
    unfold read_topic.
    destruct d as [[n|] [i|] ss]; simpl; try reflexivity.
    rewrite for_in_add_subtopic.
    destruct (comprehension read_subtopic (get ss [])) as [subs|e];
      simpl; [|reflexivity].
    rewrite IH.
    destruct rest as [ts|e]; simpl; [|reflexivity].
    unfold topic_nodes, topic_links, topic_node, topic_link, topic_id; simpl.
    now rewrite <- !app_assoc.
Qed.

(** The graph of a call that returns: the main node, then the nodes and
    links of the topics in input order. *)
Lemma create_graph_data_Ok (title : string) (topics : list topic_dict)
  (papers papers' : list paper) (g : graph) :
  Analyzer.create_graph_data title topics papers = Ok (g, papers') ->
  exists ts : list Topic,
    comprehension read_topic topics = Ok ts /\
    nodes g = main_node title :: flat_map topic_nodes ts /\
    links g = flat_map topic_links ts /\
    papers' = papers.
Proof.
  unfold Analyzer.create_graph_data. rewrite for_in_add_topic.
  destruct (comprehension read_topic topics) as [ts|e]; simpl; [|discriminate].
  intros H. injection H as <- <-. exists ts. simpl. auto.
Qed.

Lemma create_graph_data_read (title : string) (topics : list topic_dict)
  (papers : list paper) (ts : list Topic) :
  comprehension read_topic topics = Ok ts ->
  Analyzer.create_graph_data title topics papers =
  Ok ({| nodes := main_node title :: flat_map topic_nodes ts;
         links := flat_map topic_links ts |}, papers).
Proof.
  intros H. unfold Analyzer.create_graph_data.
  rewrite for_in_add_topic, H. reflexivity.
Qed.

(** ** Comprehensions that return *)

Lemma comprehension_Forall2 {A B : Type} (f : A -> result B) (xs : list A) :
  forall ys : list B,
    comprehension f xs = Ok ys <-> Forall2 (fun x y => f x = Ok y) xs ys.
Proof.
  induction xs as [|x xs IH]; intros ys; simpl.
  - split.
    + intros H. injection H as <-. constructor.
    + intros H. inversion H. reflexivity.
  - split.
    + destruct (f x) as [y|e] eqn:Hx; simpl; [|discriminate].
      destruct (comprehension f xs) as [ys'|e] eqn:Hxs; simpl; [|discriminate].
      intros H. injection H as <-. constructor; [assumption|].
      now apply IH.
    + intros H. inversion H as [|x' y xs' ys' Hx Hxs]; subst.
      rewrite Hx. simpl. apply IH in Hxs. rewrite Hxs. reflexivity.
Qed.

Lemma read_subtopic_Ok (d : topic_dict) (s : Subtopic) :
  read_subtopic d = Ok s <->
  topic d = Some (sub_name s) /\ importance d = Some (sub_importance s).
Proof.
  unfold read_subtopic. destruct d as [[n|] [i|] ss], s as [n' i']; simpl;
    split; intros H; try discriminate; try (destruct H; discriminate).
  - injection H as <- <-. auto.
  - destruct H as [H1 H2]. injection H1 as <-. injection H2 as <-. reflexivity.
Qed.

Lemma read_topic_Ok (d : topic_dict) (t : Topic) :
  read_topic d = Ok t <->
  topic d = Some (name t) /\ importance d = Some (topic_importance t) /\
  Forall2 (fun x y => read_subtopic x = Ok y)
          (get (subtopics d) []) (topic_subtopics t).
Proof.
  unfold read_topic. destruct d as [[n|] [i|] ss], t as [n' i' subs]; simpl;
    (split; [intros H|intros [H1 [H2 H3]]]); try discriminate.
  - destruct (comprehension read_subtopic (get ss [])) as [items|e] eqn:Hc;
      simpl in H; [|discriminate].
    injection H as <- <- <-. apply comprehension_Forall2 in Hc. auto.
  - injection H1 as <-. injection H2 as <-.
    apply comprehension_Forall2 in H3. rewrite H3. reflexivity.
Qed.

Lemma has_keys_read (d : topic_dict) :
  has_keys d = true -> exists s, read_subtopic d = Ok s.
Proof.
  unfold has_keys, read_subtopic.
  destruct d as [[n|] [i|] ss]; simpl; try discriminate. eauto.
Qed.

Lemma has_keys_read_all (subs : list topic_dict) :
  forallb has_keys subs = true ->
  exists items, comprehension read_subtopic subs = Ok items.
Proof.
  induction subs as [|d subs IH]; simpl; intros H.
  - eauto.
  - apply andb_true_iff in H as [Hd Hs].
    destruct (has_keys_read d Hd) as [s ->].
    destruct (IH Hs) as [items ->]. simpl. eauto.
Qed.

Lemma valid_topic_read (d : topic_dict) :
  valid_topic d = true -> exists t, read_topic d = Ok t.
Proof.
  unfold valid_topic, has_keys, read_topic.
  destruct d as [[n|] [i|] ss]; simpl; try discriminate.
  intros H. destruct (has_keys_read_all _ H) as [items ->]. simpl. eauto.
Qed.

Lemma valid_topics_read (topics : list topic_dict) :
  forallb valid_topic topics = true ->
  exists ts, comprehension read_topic topics = Ok ts.
Proof.
  induction topics as [|d topics IH]; simpl; intros H.
  - eauto.
  - apply andb_true_iff in H as [Hd Hs].
    destruct (valid_topic_read d Hd) as [t ->].
    destruct (IH Hs) as [ts ->]. simpl. eauto.
Qed.

(** ** Counting nodes and links *)

Lemma Forall2_length_eq {A B : Type} (R : A -> B -> Prop) (xs : list A)
  (ys : list B) :
  Forall2 R xs ys -> List.length xs = List.length ys.
Proof. induction 1; simpl; congruence. Qed.

Lemma read_topics_total_subtopics (topics : list topic_dict) (ts : list Topic) :
  Forall2 (fun x y => read_topic x = Ok y) topics ts ->
  list_sum (map (fun t => List.length (topic_subtopics t)) ts) =
  total_subtopics topics.
Proof.
  unfold total_subtopics.
  induction 1 as [|d t topics ts Hd _ IH]; simpl; [reflexivity|].
  apply read_topic_Ok in Hd as [_ [_ Hs]].
  apply Forall2_length_eq in Hs. rewrite IH, Hs. reflexivity.
Qed.

Lemma length_topic_nodes (ts : list Topic) :
  List.length (flat_map topic_nodes ts) =
  (List.length ts + list_sum (map (fun t => List.length (topic_subtopics t)) ts))%nat.
Proof.
  induction ts as [|t ts IH]; simpl; [reflexivity|].
  rewrite length_app, length_map, IH. lia.
Qed.

Lemma length_topic_links (ts : list Topic) :
  List.length (flat_map topic_links ts) =
  (List.length ts + list_sum (map (fun t => List.length (topic_subtopics t)) ts))%nat.
Proof.
  induction ts as [|t ts IH]; simpl; [reflexivity|].
  rewrite length_app, length_map, IH. lia.
Qed.

Lemma no_main_among_topic_nodes (ts : list Topic) :
  filter is_main (flat_map topic_nodes ts) = [].
Proof.
  induction ts as [|t ts IH]; simpl; [reflexivity|].
  rewrite filter_app, IH, app_nil_r.
  induction (topic_subtopics t) as [|s subs IHs]; simpl; auto.
Qed.

Lemma total_subtopics_bound (topics : list topic_dict) :
  forallb (fun t => (List.length (get (subtopics t) []) <=? 3)%nat) topics = true ->
  (total_subtopics topics <= 3 * List.length topics)%nat.
Proof.
  unfold total_subtopics.
  induction topics as [|t topics IH]; simpl; intros H; [lia|].
  apply andb_true_iff in H as [Ht Hs]. apply Nat.leb_le in Ht.
  specialize (IH Hs). lia.
Qed.

(** C2.  A valid tree of 5 topics with at most 3 subtopics each gives a
    graph of 1 + 5 + (number of subtopics) nodes and 5 + (number of
    subtopics) links, exactly one node of group "main" (hence at most 21
    nodes). *)
Theorem create_graph_data_size (title : string) (topics : list topic_dict)
  (papers : list paper) :
  List.length topics = 5%nat ->
  forallb (fun t => (List.length (get (subtopics t) []) <=? 3)%nat) topics = true ->
  forallb valid_topic topics = true ->
  exists g : graph,
    Analyzer.create_graph_data title topics papers = Ok (g, papers) /\
    List.length (nodes g) = (1 + 5 + total_subtopics topics)%nat /\
    List.length (links g) = (5 + total_subtopics topics)%nat /\
    List.length (filter is_main (nodes g)) = 1%nat /\
    (List.length (nodes g) <= 21)%nat.
Proof.
  intros Hlen Hsubs Hvalid.
  destruct (valid_topics_read topics Hvalid) as [ts Hts].
  exists {| nodes := main_node title :: flat_map topic_nodes ts;
            links := flat_map topic_links ts |}.
  pose proof (proj1 (comprehension_Forall2 _ _ _) Hts) as Hrel.
  pose proof (Forall2_length_eq _ _ _ Hrel) as Hn.
  pose proof (read_topics_total_subtopics _ _ Hrel) as Hsum.
  pose proof (total_subtopics_bound _ Hsubs) as Hbound.
  split; [now apply create_graph_data_read|]. simpl.
  rewrite length_topic_nodes, length_topic_links, no_main_among_topic_nodes.
  rewrite Hsum, <- Hn, Hlen. simpl. repeat split; lia.
Qed.

(** ** Node ids *)

Lemma append_assoc (a b c : string) : (a ++ b) ++ c = a ++ (b ++ c).
Proof. induction a as [|x a IH]; simpl; [reflexivity|now rewrite IH]. Qed.

Lemma underscore_split (p1 : string) :
  forall p2 s1 s2 : string,
    p1 ++ "_" ++ s1 = p2 ++ "_" ++ s2 ->
    ~ extends p1 p2 -> ~ extends p2 p1 ->
    p1 = p2 /\ s1 = s2.
Proof.
  induction p1 as [|c p1 IH]; intros [|c' p2] s1 s2 H H12 H21; simpl in H.
  - injection H as ->. auto.
  - injection H as <- ->. exfalso. apply H12. exists p2. reflexivity.
  - injection H as -> <-. exfalso. apply H21. exists p1. reflexivity.
  - injection H as <- H.
    destruct (IH p2 s1 s2 H) as [-> ->]; auto.
    + intros [r ->]. apply H12. exists r. reflexivity.
    + intros [r ->]. apply H21. exists r. reflexivity.
Qed.

Lemma node_ids_are_item_ids (ts : list Topic) :
  map node_id (flat_map topic_nodes ts) = map item_id (flat_map topic_items ts).
Proof.
  induction ts as [|t ts IH]; simpl; [reflexivity|].
  rewrite !map_app, IH, !map_map. reflexivity.
Qed.

Lemma in_topic_items (ts : list Topic) (i : item) :
  In i (flat_map topic_items ts) ->
  match i with
  | IMain => False
  | ITopic n => In n (map name ts)
  | ISubtopic parent _ => In parent (map name ts)
  end.
Proof.
  induction ts as [|t ts IH]; simpl; [tauto|].
  intros [<-|H]; [now left|].
  apply in_app_or in H as [H|H].
  - apply in_map_iff in H as [s [<- _]]. now left.
  - specialize (IH H). destruct i; auto.
Qed.

Lemma topic_items_NoDup (ts : list Topic) :
  NoDup (map name ts) ->
  Forall (fun t => NoDup (map sub_name (topic_subtopics t))) ts ->
  NoDup (flat_map topic_items ts).
Proof.
  induction ts as [|t ts IH]; simpl; intros Hn Hs; [constructor|].
  apply NoDup_cons_iff in Hn as [Hfresh Hn].
  apply Forall_cons_iff in Hs as [Hsubs Hs].
  constructor.
  - intros H. apply in_app_or in H as [H|H].
    + apply in_map_iff in H as [s [H _]]. discriminate.
    + apply in_topic_items in H. contradiction.
  - apply NoDup_app.
    + rewrite <- (map_map sub_name (ISubtopic (name t))).
      apply NoDup_map_NoDup_ForallPairs; [|assumption].
      intros x y _ _ H. now injection H.
    + now apply IH.
    + intros i Hi H. apply in_map_iff in Hi as [s [<- _]].
      apply in_topic_items in H. contradiction.
Qed.

Lemma item_id_injective (ts : list Topic) :
  (forall p q, In p (map name ts) -> In q (map name ts) -> ~ extends p q) ->
  ForallPairs (fun x y => item_id x = item_id y -> x = y)
              (IMain :: flat_map topic_items ts).
Proof.
  intros Hind x y Hx Hy.
  assert (Hin : forall i, In i (IMain :: flat_map topic_items ts) ->
                  match i with
                  | ISubtopic parent _ => In parent (map name ts)
                  | _ => True
                  end).
  { intros i [<-|Hi]; [exact I|].
    apply in_topic_items in Hi. destruct i; auto. }
  apply Hin in Hx, Hy.
  destruct x as [|n|p n], y as [|n'|p' n']; simpl; intros H;
    try discriminate; try reflexivity.
  - injection H as ->. reflexivity.
  - injection H as H.
    destruct (underscore_split p p' n n' H) as [-> ->]; auto.
Qed.

Lemma node_ids_NoDup (title : string) (ts : list Topic) :
  NoDup (map name ts) ->
  Forall (fun t => NoDup (map sub_name (topic_subtopics t))) ts ->
  (forall p q, In p (map name ts) -> In q (map name ts) -> ~ extends p q) ->
  NoDup (map node_id (main_node title :: flat_map topic_nodes ts)).
Proof.
  intros Hn Hs Hind.
  change (NoDup (item_id IMain :: map node_id (flat_map topic_nodes ts))).
  rewrite node_ids_are_item_ids.
  change (NoDup (map item_id (IMain :: flat_map topic_items ts))).
  apply NoDup_map_NoDup_ForallPairs; [now apply item_id_injective|].
  constructor.
  - intros H. apply in_topic_items in H. exact H.
  - now apply topic_items_NoDup.
Qed.

(** ** From the dictionaries to the topics read from them *)

Lemma Forall2_In_r {A B : Type} (R : A -> B -> Prop) (xs : list A) (ys : list B) :
  Forall2 R xs ys -> forall y, In y ys -> exists x, In x xs /\ R x y.
Proof.
  induction 1 as [|x y' xs ys HR _ IH]; simpl; intros y Hy; [contradiction|].
  destruct Hy as [<-|Hy]; [eauto|].
  destruct (IH y Hy) as [x' [Hx' HR']]. eauto.
Qed.

Lemma Forall2_In_l {A B : Type} (R : A -> B -> Prop) (xs : list A) (ys : list B) :
  Forall2 R xs ys -> forall x, In x xs -> exists y, In y ys /\ R x y.
Proof.
  induction 1 as [|x' y xs ys HR _ IH]; simpl; intros x Hx; [contradiction|].
  destruct Hx as [<-|Hx]; [eauto|].
  destruct (IH x Hx) as [y' [Hy' HR']]. eauto.
Qed.

Lemma read_subtopics_names (subs : list topic_dict) (items : list Subtopic) :
  Forall2 (fun x y => read_subtopic x = Ok y) subs items ->
  topic_names subs = map sub_name items.
Proof.
  induction 1 as [|d s subs items Hd _ IH]; simpl; [reflexivity|].
  apply read_subtopic_Ok in Hd as [-> _]. simpl. now rewrite IH.
Qed.

Lemma read_topics_names (topics : list topic_dict) (ts : list Topic) :
  Forall2 (fun x y => read_topic x = Ok y) topics ts ->
  topic_names topics = map name ts.
Proof.
  induction 1 as [|d t topics ts Hd _ IH]; simpl; [reflexivity|].
  apply read_topic_Ok in Hd as [-> _]. simpl. now rewrite IH.
Qed.

Lemma read_topics_subtopic_names (topics : list topic_dict) (ts : list Topic) :
  Forall2 (fun x y => read_topic x = Ok y) topics ts ->
  Forall (fun d => NoDup (topic_names (get (subtopics d) []))) topics ->
  Forall (fun t => NoDup (map sub_name (topic_subtopics t))) ts.
Proof.
  induction 1 as [|d t topics ts Hd _ IH]; intros H; [constructor|].
  apply Forall_cons_iff in H as [Hsubs H].
  constructor; [|now apply IH].
  apply read_topic_Ok in Hd as [_ [_ Hd]].
  now rewrite <- (read_subtopics_names _ _ Hd).
Qed.

Lemma prefix_append (p r : string) : String.prefix p (p ++ r) = true.
Proof.
  induction p as [|c p IH]; simpl.
  - now destruct r.
  - destruct (ascii_dec c c) as [_|Hc]; [exact IH|contradiction].
Qed.

Lemma independent_names_sound (names : list string) :
  independent_names names = true ->
  forall p q, In p names -> In q names -> ~ extends p q.
Proof.
  unfold independent_names. intros H p q Hp Hq [r ->].
  rewrite forallb_forall in H. specialize (H p Hp).
  rewrite forallb_forall in H. specialize (H _ Hq).
  rewrite <- append_assoc, prefix_append in H. discriminate.
Qed.

(** ** Which nodes and links a graph has *)

Lemma in_graph_nodes (title : string) (ts : list Topic) (n : node) :
  In n (main_node title :: flat_map topic_nodes ts) <->
  n = main_node title \/
  (exists t, In t ts /\ n = topic_node t) \/
  (exists t s, In t ts /\ In s (topic_subtopics t) /\
               n = subtopic_node (topic_id t) s).
Proof.
  simpl. rewrite in_flat_map. split.
  - intros [<-|[t [Ht [<-|Hn]]]]; eauto.
    apply in_map_iff in Hn as [s [<- Hs]]. right. right. eauto.
  - intros [->|[[t [Ht ->]]|[t [s [Ht [Hs ->]]]]]]; auto; right; exists t;
      split; auto; simpl; auto.
    right. apply in_map. assumption.
Qed.

Lemma in_graph_links (ts : list Topic) (l : link) :
  In l (flat_map topic_links ts) <->
  (exists t, In t ts /\ l = topic_link t) \/
  (exists t s, In t ts /\ In s (topic_subtopics t) /\
               l = subtopic_link (topic_id t) s).
Proof.
  rewrite in_flat_map. split.
  - intros [t [Ht [<-|Hl]]]; eauto.
    apply in_map_iff in Hl as [s [<- Hs]]. right. eauto.
  - intros [[t [Ht ->]]|[t [s [Ht [Hs ->]]]]]; exists t; split; auto;
      simpl; auto.
    right. apply in_map. assumption.
Qed.

(** C3, as stated, fails: with distinct topic names and distinct subtopic
    names within each topic, two nodes of the graph have the id
    "subtopic_topic_a_b_c". *)
Lemma node_ids_collide :
  NoDup (topic_names colliding_topics) /\
  Forall (fun t => NoDup (topic_names (get (subtopics t) []))) colliding_topics /\
  exists g : graph,
    Analyzer.create_graph_data "paper.pdf" colliding_topics [] = Ok (g, []) /\
    map node_id (nodes g) =
      ["main"; "topic_a"; "subtopic_topic_a_b_c"; "topic_a_b"; "subtopic_topic_a_b_c"] /\
    ~ NoDup (map node_id (nodes g)).
Proof.
  split; [|split].
  - simpl. repeat constructor; simpl; intuition discriminate.
  - repeat constructor; simpl; intuition discriminate.
  - eexists. split; [reflexivity|]. split; [reflexivity|].
    simpl. intros H.
    apply NoDup_cons_iff in H as [_ H].
    apply NoDup_cons_iff in H as [_ H].
    apply NoDup_cons_iff in H as [H _].
    apply H. simpl. auto.
Qed.

(** C3, amended.  In a graph that [create_graph_data] returns, a topic
    node's id is topic_<name>, a subtopic node's id is
    subtopic_<parentId>_<name> for the topic node it is linked from, and
    the node ids are pairwise distinct when the topic names are pairwise
    distinct, the subtopic names are distinct within each topic, and no
    topic name is another topic name followed by an underscore and more
    text. *)
Theorem node_ids_distinct (title : string) (topics : list topic_dict)
  (papers papers' : list paper) (g : graph) :
  Analyzer.create_graph_data title topics papers = Ok (g, papers') ->
  NoDup (topic_names topics) ->
  Forall (fun t => NoDup (topic_names (get (subtopics t) []))) topics ->
  independent_names (topic_names topics) = true ->
  (forall n, In n (nodes g) -> node_group n = "topic" ->
     node_id n = "topic_" ++ node_name n) /\
  (forall n, In n (nodes g) -> node_group n = "subtopic" ->
     exists parent,
       In parent (nodes g) /\ node_group parent = "topic" /\
       node_id n = "subtopic_" ++ node_id parent ++ "_" ++ node_name n /\
       In {| link_source := node_id parent;
             link_target := node_id n;
             link_value := node_val n |} (links g)) /\
  NoDup (map node_id (nodes g)).
Proof.
  intros Hg Hnames Hsubs Hind.
  apply create_graph_data_Ok in Hg as [ts [Hts [Hnodes [Hlinks _]]]].
  apply comprehension_Forall2 in Hts.
  rewrite Hnodes, Hlinks. split; [|split].
  - intros n Hn Hgroup.
    apply in_graph_nodes in Hn as [->|[[t [_ ->]]|[t [s [_ [_ ->]]]]]];
      try discriminate. reflexivity.
  - intros n Hn Hgroup.
    apply in_graph_nodes in Hn as [->|[[t [_ ->]]|[t [s [Ht [Hs ->]]]]]];
      try discriminate.
    exists (topic_node t). split; [|split; [reflexivity|split; [reflexivity|]]].
    + apply in_graph_nodes. eauto.
    + apply in_graph_links. right. exists t, s. auto.
  - rewrite (read_topics_names _ _ Hts) in Hnames, Hind.
    apply node_ids_NoDup; auto.
    + now apply (read_topics_subtopic_names topics).
    + now apply independent_names_sound.
Qed.

(** ** The display name of the paper *)

Lemma slice_to_prefix (n : nat) :
  forall s : string,
    (n <= String.length s)%nat ->
    exists tail, s = Py.slice_to n s ++ tail /\
                 String.length (Py.slice_to n s) = n.
Proof.
  induction n as [|n IH]; intros s Hlen; simpl.
  - exists s. auto.
  - destruct s as [|c s]; simpl in *; [lia|].
    destruct (IH s) as [tail [Hs Hn]]; [lia|].
    exists tail. split; [now rewrite <- Hs | now rewrite Hn].
Qed.

(** C9.  The first node of the graph is the main node; its name is the
    title when the title has at most 50 characters, and otherwise the
    first 50 characters of the title followed by "...". *)
Theorem main_node_name (title : string) (topics : list topic_dict)
  (papers papers' : list paper) (g : graph) :
  Analyzer.create_graph_data title topics papers = Ok (g, papers') ->
  exists (main : node) (rest : list node),
    nodes g = main :: rest /\
    node_id main = "main" /\ node_group main = "main" /\
    ((String.length title <= 50)%nat -> node_name main = title) /\
    ((50 < String.length title)%nat ->
       exists head tail,
         title = head ++ tail /\ String.length head = 50%nat /\
         head = Py.slice_to 50 title /\
         node_name main = head ++ "...").
Proof.
  intros Hg.
  apply create_graph_data_Ok in Hg as [ts [_ [Hnodes _]]].
  exists (main_node title), (flat_map topic_nodes ts).
  split; [assumption|]. split; [reflexivity|]. split; [reflexivity|].
  unfold main_node, Analyzer.short_title_of. cbn [node_name]. split.
  - intros Hlen. apply Nat.ltb_ge in Hlen. now rewrite Hlen.
  - intros Hlen.
    destruct (slice_to_prefix 50 title) as [tail [Htitle Hhead]]; [lia|].
    exists (Py.slice_to 50 title), tail.
    apply Nat.ltb_lt in Hlen. rewrite Hlen. auto.
Qed.

(** ** Weights *)

(** C6.  In a graph that [create_graph_data] returns, the node of group
    "main" has weight 20; a node of group "topic" has twice the importance
    of the topic it is named after; a node of group "subtopic" has the
    importance of its subtopic; and every topic and subtopic of the input
    has such a node. *)
Theorem node_weights (title : string) (topics : list topic_dict)
  (papers papers' : list paper) (g : graph) :
  Analyzer.create_graph_data title topics papers = Ok (g, papers') ->
  (exists main rest,
     nodes g = main :: rest /\ node_group main = "main" /\ node_val main = 20%Z) /\
  (forall n, In n (nodes g) -> node_group n = "main" -> node_val n = 20%Z) /\
  (forall n, In n (nodes g) -> node_group n = "topic" ->
     exists d i,
       In d topics /\ topic d = Some (node_name n) /\ importance d = Some i /\
       node_val n = (i * 2)%Z) /\
  (forall n, In n (nodes g) -> node_group n = "subtopic" ->
     exists d sd i,
       In d topics /\ In sd (get (subtopics d) []) /\
       topic sd = Some (node_name n) /\ importance sd = Some i /\
       node_val n = i) /\
  (forall d, In d topics ->
     exists nm i,
       topic d = Some nm /\ importance d = Some i /\
       In {| node_id := "topic_" ++ nm; node_name := nm;
             node_val := (i * 2)%Z; node_group := "topic" |} (nodes g)) /\
  (forall d sd, In d topics -> In sd (get (subtopics d) []) ->
     exists pn nm i,
       topic d = Some pn /\ topic sd = Some nm /\ importance sd = Some i /\
       In {| node_id := "subtopic_" ++ ("topic_" ++ pn) ++ "_" ++ nm;
             node_name := nm; node_val := i; node_group := "subtopic" |}
          (nodes g)).
Proof.
  intros Hg.
  apply create_graph_data_Ok in Hg as [ts [Hts [Hnodes _]]].
  apply comprehension_Forall2 in Hts. rewrite Hnodes.
  split; [|split; [|split; [|split; [|split]]]].
  - exists (main_node title), (flat_map topic_nodes ts). auto.
  - intros n Hn Hgroup.
    apply in_graph_nodes in Hn as [->|[[t [_ ->]]|[t [s [_ [_ ->]]]]]];
      try discriminate. reflexivity.
  - intros n Hn Hgroup.
    apply in_graph_nodes in Hn as [->|[[t [Ht ->]]|[t [s [_ [_ ->]]]]]];
      try discriminate.
    destruct (Forall2_In_r _ _ _ Hts t Ht) as [d [Hd Hread]].
    apply read_topic_Ok in Hread as [Hname [Himp _]].
    exists d, (topic_importance t). auto.
  - intros n Hn Hgroup.
    apply in_graph_nodes in Hn as [->|[[t [_ ->]]|[t [s [Ht [Hs ->]]]]]];
      try discriminate.
    destruct (Forall2_In_r _ _ _ Hts t Ht) as [d [Hd Hread]].
    apply read_topic_Ok in Hread as [_ [_ Hsubs]].
    destruct (Forall2_In_r _ _ _ Hsubs s Hs) as [sd [Hsd Hreads]].
    apply read_subtopic_Ok in Hreads as [Hname Himp].
    exists d, sd, (sub_importance s). auto.
  - intros d Hd.
    destruct (Forall2_In_l _ _ _ Hts d Hd) as [t [Ht Hread]].
    apply read_topic_Ok in Hread as [Hname [Himp _]].
    exists (name t), (topic_importance t). split; [|split]; auto.
    apply in_graph_nodes. right. left. exists t. auto.
  - intros d sd Hd Hsd.
    destruct (Forall2_In_l _ _ _ Hts d Hd) as [t [Ht Hread]].
    apply read_topic_Ok in Hread as [Hname [_ Hsubs]].
    destruct (Forall2_In_l _ _ _ Hsubs sd Hsd) as [s [Hs Hreads]].
    apply read_subtopic_Ok in Hreads as [Hsname Himp].
    exists (name t), (sub_name s), (sub_importance s).
    split; [|split; [|split]]; auto.
    apply in_graph_nodes. right. right. exists t, s. auto.
Qed.

Lemma topic_nodes_entries (ts : list Topic) :
  flat_map topic_nodes ts = map fst (flat_map topic_entries ts).
Proof.
  induction ts as [|t ts IH]; simpl; [reflexivity|].
  now rewrite map_app, map_map, IH.
Qed.

Lemma topic_links_entries (ts : list Topic) :
  flat_map topic_links ts = map snd (flat_map topic_entries ts).
Proof.
  induction ts as [|t ts IH]; simpl; [reflexivity|].
  now rewrite map_app, map_map, IH.
Qed.

Lemma in_topic_entries (ts : list Topic) (p : node * link) :
  In p (flat_map topic_entries ts) ->
  (exists t, In t ts /\ p = (topic_node t, topic_link t)) \/
  (exists t s, In t ts /\ In s (topic_subtopics t) /\
     p = (subtopic_node (topic_id t) s, subtopic_link (topic_id t) s)).
Proof.
  rewrite in_flat_map. intros [t [Ht [<-|Hp]]]; eauto.
  apply in_map_iff in Hp as [s [<- Hs]]. right. eauto.
Qed.

(** C7.  In a graph that [create_graph_data] returns, the k-th link ends at
    the node that follows the main node at position k, and its weight is
    the importance of the topic or subtopic that node was made from. *)
Theorem link_weights (title : string) (topics : list topic_dict)
  (papers papers' : list paper) (g : graph) :
  Analyzer.create_graph_data title topics papers = Ok (g, papers') ->
  forall (k : nat) (e : link),
    nth_error (links g) k = Some e ->
    exists n : node,
      nth_error (nodes g) (S k) = Some n /\
      link_target e = node_id n /\
      ((node_group n = "topic" /\ link_source e = "main" /\
        exists d,
          In d topics /\ topic d = Some (node_name n) /\
          importance d = Some (link_value e))
       \/
       (node_group n = "subtopic" /\
        exists d sd pn,
          In d topics /\ In sd (get (subtopics d) []) /\
          topic d = Some pn /\ link_source e = "topic_" ++ pn /\
          topic sd = Some (node_name n) /\
          importance sd = Some (link_value e))).
Proof.
  intros Hg k e Hk.
  apply create_graph_data_Ok in Hg as [ts [Hts [Hnodes [Hlinks _]]]].
  apply comprehension_Forall2 in Hts.
  rewrite Hlinks, topic_links_entries in Hk.
  rewrite Hnodes, topic_nodes_entries. simpl.
  rewrite nth_error_map in Hk |- *.
  destruct (nth_error (flat_map topic_entries ts) k) as [p|] eqn:Hp;
    simpl in Hk; [|discriminate].
  injection Hk as <-. apply nth_error_In in Hp.
  exists (fst p). split; [reflexivity|].
  apply in_topic_entries in Hp as [[t [Ht ->]]|[t [s [Ht [Hs ->]]]]]; simpl;
    (split; [reflexivity|]);
    destruct (Forall2_In_r _ _ _ Hts t Ht) as [d [Hd Hread]];
    apply read_topic_Ok in Hread as [Hname [Himp Hsubs]].
  - left. split; [reflexivity|]. split; [reflexivity|]. exists d. auto.
  - right. split; [reflexivity|].
    destruct (Forall2_In_r _ _ _ Hsubs s Hs) as [sd [Hsd Hreads]].
    apply read_subtopic_Ok in Hreads as [Hsname Hsimp].
    exists d, sd, (name t). repeat split; auto.
Qed.

(** ** The search for related papers *)

Section Search.

Context {World : Type} {libs : Collaborators World}.

Lemma add_entries_parsed (topic_name : string) (entries : list ET.Element) :
  forall related_papers : list paper,
    Analyzer.add_entries entries topic_name related_papers =
    (related_papers ++ parsed_entries topic_name entries)%list.
Proof.
  unfold Analyzer.add_entries.
  induction entries as [|entry entries IH]; intros related_papers; simpl.
  - now rewrite app_nil_r.
  - rewrite IH.
    destruct (Analyzer.parse_entry entry topic_name) as [p|e]; simpl.
    + now rewrite <- app_assoc.
    + reflexivity.
Qed.

Lemma search_topic_guarded (topic_name : string) (related_papers : list paper)
  (w : World) :
  try_except (Analyzer.search_topic topic_name related_papers)
             (fun _ => ret related_papers) w =
  (Ok (related_papers
       ++ query_papers topic_name (fst (requests_get (query_url topic_name) 10 w)))%list,
   snd (requests_get (query_url topic_name) 10 w)).
Proof.
  unfold try_except, Analyzer.search_topic, bindM, query_papers.
  fold (query_url topic_name).
  destruct (requests_get (query_url topic_name) 10 w) as [[response|e] w']; simpl.
  - destruct (status_code response =? 200)%Z; unfold lift, ret; simpl.
    + destruct (ET_fromstring (response_text response)) as [root|e]; simpl.
      * now rewrite add_entries_parsed.
      * now rewrite app_nil_r.
    + now rewrite app_nil_r.
  - unfold ret. now rewrite app_nil_r.
Qed.

Lemma search_all_contributions (queries : list string) :
  forall (related_papers : list paper) (w : World),
    Analyzer.search_all queries related_papers w =
    (Ok (related_papers
         ++ contributions queries (fst (provider_replies queries w)))%list,
     snd (provider_replies queries w)).
Proof.
  unfold contributions.
  induction queries as [|q queries IH]; intros related_papers w; simpl.
  - unfold ret. now rewrite app_nil_r.
  - unfold bindM. rewrite search_topic_guarded, IH.
    destruct (requests_get (query_url q) 10 w) as [reply w']; simpl.
    destruct (provider_replies queries w') as [replies w'']; simpl.
    now rewrite <- app_assoc.
Qed.

Lemma provider_replies_length (queries : list string) :
  forall w : World,
    List.length (fst (provider_replies queries w)) = List.length queries.
Proof.
  induction queries as [|q queries IH]; intros w; simpl; [reflexivity|].
  destruct (requests_get (query_url q) 10 w) as [reply w'].
  specialize (IH w').
  destruct (provider_replies queries w') as [replies w'']; simpl in *.
  now rewrite IH.
Qed.

End Search.

Lemma names_comprehension (ds : list topic_dict) :
  forallb has_name ds = true ->
  comprehension (fun d => getitem "topic" (topic d)) ds = Ok (topic_names ds).
Proof.
  induction ds as [|d ds IH]; simpl; intros H; [reflexivity|].
  apply andb_true_iff in H as [Hd Hds]. unfold has_name in Hd.
  destruct (topic d) as [n|]; [|discriminate]. simpl.
  now rewrite (IH Hds).
Qed.

Lemma subtopic_names_loop (topics : list topic_dict) :
  forallb named_topic topics = true ->
  forall all_topics : list string,
    for_in topics
      (fun t all_topics =>
         let? names :=
           comprehension (fun subtopic => getitem "topic" (topic subtopic))
                         (get (subtopics t) []) in
         Ok (all_topics ++ names)%list)
      all_topics =
    Ok (all_topics
        ++ flat_map (fun t => topic_names (get (subtopics t) [])) topics)%list.
Proof.
  induction topics as [|t topics IH]; simpl; intros H all_topics.
  - now rewrite app_nil_r.
  - apply andb_true_iff in H as [Ht Hts].
    apply andb_true_iff in Ht as [_ Hsubs].
    rewrite (names_comprehension _ Hsubs). simpl.
    rewrite (IH Hts). now rewrite <- app_assoc.
Qed.

Lemma all_topics_of_flatten (topics : list topic_dict) :
  forallb named_topic topics = true ->
  Analyzer.all_topics_of topics = Ok (flatten topics).
Proof.
  intros H. unfold Analyzer.all_topics_of, flatten.
  rewrite names_comprehension.
  - simpl. now apply subtopic_names_loop.
  - clear -H. induction topics as [|t topics IH]; simpl in *; [reflexivity|].
    apply andb_true_iff in H as [Ht Hts].
    apply andb_true_iff in Ht as [-> _]. simpl. auto.
Qed.

(** C1.  For topics that carry their names, [find_related_papers] returns
    (it does not raise) the concatenation, over the queries in flattening
    order, of the entries of each reply that parse; every query is sent,
    one after the other; and a query whose request raises, whose status is
    not 200, or whose text the XML parser rejects contributes nothing. *)
Theorem find_related_papers_concatenates {World : Type}
  {libs : Collaborators World} (topics : list topic_dict) (w : World) :
  forallb named_topic topics = true ->
  let queries := flatten topics in
  let replies := provider_replies queries w in
  Analyzer.find_related_papers topics w =
    (Ok (contributions queries (fst replies)), snd replies) /\
  List.length (fst replies) = List.length queries /\
  (forall q e, query_papers q (Raise e) = []) /\
  (forall q response,
     status_code response <> 200%Z -> query_papers q (Ok response) = []) /\
  (forall q response e,
     ET_fromstring (response_text response) = Raise e ->
     query_papers q (Ok response) = []).
Proof.
  intros Hnamed queries replies. split; [|split; [|split; [|split]]].
  - unfold Analyzer.find_related_papers, bindM, lift.
    rewrite (all_topics_of_flatten topics Hnamed).
    now rewrite search_all_contributions.
  - apply provider_replies_length.
  - reflexivity.
  - intros q response Hstatus. simpl.
    apply Z.eqb_neq in Hstatus. now rewrite Hstatus.
  - intros q response e Hparse. simpl. rewrite Hparse.
    now destruct (status_code response =? 200)%Z.
Qed.

(** ** A topic without the 'subtopics' key *)

Lemma for_in_congr {A S : Type} (body : A -> S -> result S) (xs ys : list A) :
  Forall2 (fun x y => forall s, body x s = body y s) xs ys ->
  forall s, for_in xs body s = for_in ys body s.
Proof.
  induction 1 as [|x y xs ys Hxy _ IH]; intros s; simpl; [reflexivity|].
  rewrite Hxy. destruct (body y s) as [s'|e]; simpl; auto.
Qed.

Lemma comprehension_congr {A B : Type} (f : A -> result B) (xs ys : list A) :
  Forall2 (fun x y => f x = f y) xs ys ->
  comprehension f xs = comprehension f ys.
Proof.
  induction 1 as [|x y xs ys Hxy _ IH]; simpl; [reflexivity|].
  now rewrite Hxy, IH.
Qed.

Lemma Forall2_replace {A : Type} (R : A -> A -> Prop) (before after : list A)
  (x y : A) :
  (forall z, R z z) -> R x y ->
  Forall2 R (before ++ x :: after) (before ++ y :: after).
Proof.
  intros Hrefl Hxy. apply Forall2_app.
  - induction before; constructor; auto.
  - constructor; [assumption|]. induction after; constructor; auto.
Qed.

Lemma all_topics_of_absent_subtopics (n : string) (i : Z)
  (before after : list topic_dict) :
  Analyzer.all_topics_of (before ++ Dict (Some n) (Some i) None :: after) =
  Analyzer.all_topics_of (before ++ Dict (Some n) (Some i) (Some []) :: after).
Proof.
  unfold Analyzer.all_topics_of.
  rewrite (comprehension_congr _
             (before ++ Dict (Some n) (Some i) None :: after)
             (before ++ Dict (Some n) (Some i) (Some []) :: after))
    by (apply Forall2_replace; auto).
  destruct (comprehension _ _) as [names|e]; simpl; [|reflexivity].
  apply for_in_congr. apply Forall2_replace; auto.
Qed.

(** C10.  A topic with its 'topic' and 'importance' keys and no 'subtopics'
    key: [find_related_papers] sends one query for it and returns;
    [create_graph_data] adds one topic node and one link from the main
    node and returns; and in any list of topics both functions give what
    they give when the key is there with an empty list. *)
Theorem absent_subtopics_as_empty {World : Type} {libs : Collaborators World}
  (n : string) (i : Z) :
  let t := Dict (Some n) (Some i) None in
  let t' := Dict (Some n) (Some i) (Some []) in
  Analyzer.all_topics_of [t] = Ok [n] /\
  (forall w : World,
     Analyzer.find_related_papers [t] w =
     (Ok (query_papers n (fst (requests_get (query_url n) 10 w))),
      snd (requests_get (query_url n) 10 w))) /\
  (forall title papers,
     Analyzer.create_graph_data title [t] papers =
     Ok ({| nodes := [ main_node title;
                       {| node_id := "topic_" ++ n; node_name := n;
                          node_val := (i * 2)%Z; node_group := "topic" |} ];
            links := [ {| link_source := "main"; link_target := "topic_" ++ n;
                          link_value := i |} ] |},
         papers)) /\
  (forall before after,
     Analyzer.all_topics_of (before ++ t :: after) =
     Analyzer.all_topics_of (before ++ t' :: after)) /\
  (forall before after (w : World),
     Analyzer.find_related_papers (before ++ t :: after) w =
     Analyzer.find_related_papers (before ++ t' :: after) w) /\
  (forall title before after papers,
     Analyzer.create_graph_data title (before ++ t :: after) papers =
     Analyzer.create_graph_data title (before ++ t' :: after) papers).
Proof.
  intros t t'. split; [reflexivity|]. split; [|split; [reflexivity|split; [|split]]].
  - intros w. unfold Analyzer.find_related_papers, bindM, lift. simpl.
    unfold bindM. rewrite search_topic_guarded. reflexivity.
  - intros before after. apply all_topics_of_absent_subtopics.
  - intros before after w. unfold Analyzer.find_related_papers, bindM, lift.
    unfold t, t'. now rewrite all_topics_of_absent_subtopics.
  - intros title before after papers. unfold Analyzer.create_graph_data.
    rewrite (for_in_congr Analyzer.add_topic (before ++ t :: after)
               (before ++ t' :: after)); [reflexivity|].
    apply Forall2_replace; auto.
Qed.

(** ** Entries with missing fields *)

Lemma authors_loop_returns (author_elements : list ET.Element) :
  forallb (text_present (ET.atom "name")) author_elements = true ->
  forall authors : list string,
    exists names : list string,
      for_in author_elements
        (fun author authors =>
           match ET.find (ET.atom "name") author with
           | Some elem =>
               let? name := Analyzer.text_then "strip" Py.strip elem in
               Ok (authors ++ [name])%list
           | None => Ok authors
           end)
        authors = Ok names.
Proof.
  induction author_elements as [|author rest IH]; simpl; intros H authors.
  - eauto.
  - apply andb_true_iff in H as [Ha Hrest]. unfold text_present in Ha.
    destruct (ET.find (ET.atom "name") author) as [elem|]; simpl.
    + unfold Analyzer.text_then.
      destruct (ET.text elem) as [t|]; [|discriminate]. simpl. now apply IH.
    + now apply IH.
Qed.

(** C8.  An entry whose fields, where present, have text is parsed into a
    record and appended (it is not skipped and nothing is raised), and the
    record has the sentinel string at each of the id, title, summary and
    published fields that the entry lacks. *)
Theorem missing_fields_get_sentinels (entry : ET.Element) (topic_name : string) :
  well_texted entry = true ->
  exists p : paper,
    Analyzer.parse_entry entry topic_name = Ok p /\
    (forall related_papers,
       Analyzer.add_entries [entry] topic_name related_papers =
       (related_papers ++ [p])%list) /\
    paper_topic p = topic_name /\
    (ET.find (ET.atom "id") entry = None -> paper_id p = "id not found") /\
    (ET.find (ET.atom "title") entry = None -> paper_title p = "title not found") /\
    (ET.find (ET.atom "summary") entry = None ->
       summary p = "no abstract available") /\
    (ET.find (ET.atom "published") entry = None ->
       published p = "date not available").
Proof.
  unfold well_texted. intros H.
  apply andb_true_iff in H as [H Hauthors].
  apply andb_true_iff in H as [H Hpublished].
  apply andb_true_iff in H as [H Hsummary].
  apply andb_true_iff in H as [Hid Htitle].
  destruct (authors_loop_returns _ Hauthors []) as [names Hnames].
  unfold Analyzer.add_entries. cbn [fold_left].
  unfold Analyzer.parse_entry. cbv zeta. rewrite Hnames.
  unfold text_present in Hid, Htitle, Hsummary, Hpublished.
  unfold Analyzer.text_then.
  destruct (ET.find (ET.atom "id") entry) as [e1|];
    [destruct (ET.text e1); [|discriminate]|];
  (destruct (ET.find (ET.atom "title") entry) as [e2|];
    [destruct (ET.text e2); [|discriminate]|]);
  (destruct (ET.find (ET.atom "summary") entry) as [e3|];
    [destruct (ET.text e3); [|discriminate]|]);
  (destruct (ET.find (ET.atom "published") entry) as [e4|];
    [destruct (ET.text e4); [|discriminate]|]);
  simpl; eexists; (split; [reflexivity|]);
  repeat split; try reflexivity; intros; try discriminate; reflexivity.
Qed.

(** ** Trimming *)

Lemma lstrip_trims (s : string) :
  exists lead : string,
    s = lead ++ Py.lstrip s /\ all_space lead = true /\
    (forall c rest, Py.lstrip s = String c rest -> Py.isspace c = false).
Proof.
  induction s as [|a s IH]; simpl.
  - exists EmptyString. repeat split. discriminate.
  - destruct (Py.isspace a) eqn:Ha.
    + destruct IH as [lead [Hs [Hlead Hfirst]]].
      exists (String a lead). simpl. rewrite <- Hs, Ha, Hlead. auto.
    + exists EmptyString. repeat split.
      intros c rest H. now injection H as <- _.
Qed.

Lemma rstrip_trims (s : string) :
  exists trail : string,
    s = Py.rstrip s ++ trail /\ all_space trail = true /\
    (forall body c, Py.rstrip s = body ++ String c EmptyString ->
                    Py.isspace c = false).
Proof.
  induction s as [|a s IH]; simpl.
  - exists EmptyString. repeat split. intros [|b body] c H; discriminate.
  - destruct IH as [trail [Hs [Htrail Hlast]]].
    destruct (Py.rstrip s) as [|k kept] eqn:Hk.
    + simpl in Hs. subst trail. destruct (Py.isspace a) eqn:Ha.
      * exists (String a s). simpl. rewrite Ha, Htrail. repeat split.
        intros [|b body] c H; discriminate.
      * exists s. repeat split; auto.
        intros [|b [|b' body]] c H; simpl in H; try discriminate.
        now injection H as <-.
    + exists trail. simpl in Hs. rewrite Hs at 1. repeat split; auto.
      intros [|b body] c H; simpl in H; [discriminate|].
      injection H as _ H. now apply (Hlast body c).
Qed.

Lemma rstrip_keeps_first (c : ascii) (rest : string) :
  Py.isspace c = false ->
  exists kept, Py.rstrip (String c rest) = String c kept.
Proof.
  intros Hc. simpl. destruct (Py.rstrip rest); rewrite ?Hc; eauto.
Qed.

(** [s.strip()] is [s] without its leading and trailing whitespace. *)
Lemma strip_trims (s : string) :
  exists lead trail : string,
    s = lead ++ Py.strip s ++ trail /\
    all_space lead = true /\ all_space trail = true /\
    (forall c rest, Py.strip s = String c rest -> Py.isspace c = false) /\
    (forall body c, Py.strip s = body ++ String c EmptyString ->
                    Py.isspace c = false).
Proof.
  unfold Py.strip.
  destruct (lstrip_trims s) as [lead [Hs [Hlead Hfirst]]].
  destruct (rstrip_trims (Py.lstrip s)) as [trail [Hl [Htrail Hlast]]].
  exists lead, trail. rewrite <- Hl. repeat split; auto.
  intros c rest H.
  destruct (Py.lstrip s) as [|a l]; [discriminate|].
  pose proof (Hfirst a l eq_refl) as Ha.
  destruct (rstrip_keeps_first a l Ha) as [kept Hkept].
  rewrite Hkept in H. now injection H as <- _.
Qed.

(** ** The reply of the language model *)

(** C5.  When the model's first choice is the text [reply],
    [extract_topics] hands [reply] without its surrounding whitespace to
    the JSON parser; it raises the parser's exception when the parser
    rejects the text, raises a ValueError when the parsed value is not a
    list, and returns the list otherwise.  A raised exception reaches the
    caller as it is, so no topic list is returned. *)
Theorem extract_topics_rejects {World : Type} {libs : Collaborators World}
  (text reply : string) (others : list (option string)) (w w' : World) :
  chat_completions_create Analyzer.model (Py.slice_to 4000 text) w =
    (Ok (Some reply :: others), w') ->
  (exists lead trail,
     reply = lead ++ Py.strip reply ++ trail /\
     all_space lead = true /\ all_space trail = true) /\
  (forall e, json_loads (Py.strip reply) = Raise e ->
     Analyzer.extract_topics text w = (Raise e, w')) /\
  (forall v, json_loads (Py.strip reply) = Ok v ->
     (forall items, v <> JList items) ->
     Analyzer.extract_topics text w =
     (Raise (ValueError "openai did not return a list of topics"), w')) /\
  (forall items, json_loads (Py.strip reply) = Ok (JList items) ->
     Analyzer.extract_topics text w = (Ok items, w')).
Proof.
  intros Hcall. split; [|split; [|split]].
  - destruct (strip_trims reply) as [lead [trail [H [Hl [Ht _]]]]]. eauto.
  - intros e Hjson.
    unfold Analyzer.extract_topics, try_except, bindM, lift.
    now rewrite Hcall, Hjson.
  - intros v Hjson Hv.
    unfold Analyzer.extract_topics, try_except, bindM, lift.
    rewrite Hcall, Hjson.
    destruct v; try reflexivity. now destruct (Hv items).
  - intros items Hjson.
    unfold Analyzer.extract_topics, try_except, bindM, lift.
    now rewrite Hcall, Hjson.
Qed.

(** ** The endpoint *)

Section EndpointProperties.

Context {World : Type} {libs : Collaborators World}.

(** The check of the file name is outside the [try]: its exception reaches
    the caller with status 400. *)
Lemma analyze_paper_wrong_type (file : UploadFile) (w : World) :
  Py.endswith (filename file) ".pdf" = false ->
  Main.analyze_paper file w =
  (Raise (HTTPException 400 "Only PDF files are accepted"), w).
Proof.
  intros H. unfold Main.analyze_paper. rewrite H. reflexivity.
Qed.

(** The check of the size is inside the [try]: its exception is caught by
    [except Exception] and raised again with status 500, before any stage
    has run. *)
Lemma analyze_paper_oversized (file : UploadFile) (w : World) :
  Py.endswith (filename file) ".pdf" = true ->
  (10 * 1024 * 1024 < Z.of_nat (List.length (contents file)))%Z ->
  Main.analyze_paper file w =
  (Raise (HTTPException 500
            (str_exn (HTTPException 400 "File too large. Please upload a smaller PDF"))),
   w).
Proof.
  intros Hname Hsize. unfold Main.analyze_paper. rewrite Hname.
  apply Z.ltb_lt in Hsize. unfold try_except. cbv zeta. rewrite Hsize.
  reflexivity.
Qed.

Lemma oversized_upload_length :
  Z.of_nat (List.length (contents oversized_upload)) = (15 * 1024 * 1024)%Z.
Proof.
  unfold oversized_upload. cbn [contents].
  rewrite repeat_length. apply Z2Nat.id. lia.
Qed.

(** C4 on the code.  A PDF of 15 MiB is rejected before any stage runs (the
    world is untouched, whatever the libraries are), but the exception that
    reaches the caller has status 500, not a 4xx status: the 400 raised for
    the size is caught by the endpoint's own handler. *)
Theorem oversized_upload_gets_500 (w : World) :
  exists e : exn,
    Main.analyze_paper oversized_upload w = (Raise e, w) /\
    e = HTTPException 500
          (str_exn (HTTPException 400 "File too large. Please upload a smaller PDF")) /\
    is_client_error e = false.
Proof.
  eexists. split; [|split; [reflexivity|reflexivity]].
  apply analyze_paper_oversized.
  - reflexivity.
  - rewrite oversized_upload_length. lia.
Qed.

End EndpointProperties.

(** ** The theorems at work *)

Lemma find_related_papers_concatenates_witness :
  forallb named_topic three_queries = true /\
  (let queries := flatten three_queries in
   let replies := provider_replies (libs := sample_libs "[]") queries [] in
   Analyzer.find_related_papers (libs := sample_libs "[]") three_queries [] =
     (Ok (contributions (libs := sample_libs "[]") queries (fst replies)),
      snd replies) /\
   List.length (fst replies) = List.length queries /\
   (forall q e, query_papers (libs := sample_libs "[]") q (Raise e) = []) /\
   (forall q response,
      status_code response <> 200%Z ->
      query_papers (libs := sample_libs "[]") q (Ok response) = []) /\
   (forall q response e,
      ET_fromstring (Collaborators := sample_libs "[]") (response_text response)
        = Raise e ->
      query_papers (libs := sample_libs "[]") q (Ok response) = [])).
Proof.
  split; [reflexivity|].
  exact (find_related_papers_concatenates (libs := sample_libs "[]")
           three_queries [] eq_refl).
Defined.

(** Of three queries the second times out: the papers of the first and of
    the third are returned, in that order, and all three were sent. *)
Example second_query_fails_others_kept :
  Analyzer.find_related_papers (libs := sample_libs "[]") three_queries [] =
  (Ok [ {| paper_id := "2101.00001v1"; paper_title := "title not found";
           summary := "We study gradient methods."; published := "2021-01-04";
           authors := ["A. Author"]; paper_topic := "neural networks" |};
        {| paper_id := "2101.00001v1"; paper_title := "title not found";
           summary := "We study gradient methods."; published := "2021-01-04";
           authors := ["A. Author"]; paper_topic := "gradient descent" |} ],
   [ query_url "neural networks"; query_url "optimization";
     query_url "gradient descent" ]).
Proof. reflexivity. Qed.

(** A topic without its 'topic' key is outside the theorem: the flattening
    raises before any query is sent. *)
Example find_related_papers_unnamed_topic :
  Analyzer.find_related_papers (libs := sample_libs "[]")
    [Dict None (Some 3%Z) None] [] = (Raise (KeyError "topic"), []).
Proof. reflexivity. Qed.

Lemma create_graph_data_size_witness :
  List.length sample_topics = 5%nat /\
  forallb (fun t => (List.length (get (subtopics t) []) <=? 3)%nat) sample_topics
    = true /\
  forallb valid_topic sample_topics = true /\
  exists g : graph,
    Analyzer.create_graph_data "paper.pdf" sample_topics [] = Ok (g, []) /\
    List.length (nodes g) = (1 + 5 + total_subtopics sample_topics)%nat /\
    List.length (links g) = (5 + total_subtopics sample_topics)%nat /\
    List.length (filter is_main (nodes g)) = 1%nat /\
    (List.length (nodes g) <= 21)%nat.
Proof.
  split; [reflexivity|]. split; [reflexivity|]. split; [reflexivity|].
  exact (create_graph_data_size "paper.pdf" sample_topics [] eq_refl eq_refl eq_refl).
Defined.

Lemma sample_graph_created :
  Analyzer.create_graph_data "paper.pdf" sample_topics [] = Ok (sample_graph, []).
Proof. reflexivity. Defined.

Lemma sample_names_distinct : NoDup (topic_names sample_topics).
Proof. simpl. repeat constructor; simpl; intuition discriminate. Defined.

Lemma sample_subtopic_names_distinct :
  Forall (fun t => NoDup (topic_names (get (subtopics t) []))) sample_topics.
Proof. repeat constructor; simpl; intuition discriminate. Defined.

Lemma node_ids_distinct_witness :
  Analyzer.create_graph_data "paper.pdf" sample_topics [] = Ok (sample_graph, []) /\
  NoDup (topic_names sample_topics) /\
  Forall (fun t => NoDup (topic_names (get (subtopics t) []))) sample_topics /\
  independent_names (topic_names sample_topics) = true /\
  (forall n, In n (nodes sample_graph) -> node_group n = "topic" ->
     node_id n = "topic_" ++ node_name n) /\
  (forall n, In n (nodes sample_graph) -> node_group n = "subtopic" ->
     exists parent,
       In parent (nodes sample_graph) /\ node_group parent = "topic" /\
       node_id n = "subtopic_" ++ node_id parent ++ "_" ++ node_name n /\
       In {| link_source := node_id parent;
             link_target := node_id n;
             link_value := node_val n |} (links sample_graph)) /\
  NoDup (map node_id (nodes sample_graph)).
Proof.
  split; [exact sample_graph_created|].
  split; [exact sample_names_distinct|].
  split; [exact sample_subtopic_names_distinct|].
  split; [reflexivity|].
  exact (node_ids_distinct "paper.pdf" sample_topics [] [] sample_graph
           sample_graph_created sample_names_distinct
           sample_subtopic_names_distinct eq_refl).
Defined.

Lemma extract_topics_rejects_witness :
  chat_completions_create (Collaborators := sample_libs " {} ")
    Analyzer.model
    (Py.slice_to 4000 "Paper about neural networks and optimization.") [] =
    (Ok [Some " {} "], []) /\
  (exists lead trail,
     " {} " = lead ++ Py.strip " {} " ++ trail /\
     all_space lead = true /\ all_space trail = true) /\
  (forall e,
     json_loads (Collaborators := sample_libs " {} ") (Py.strip " {} ") = Raise e ->
     Analyzer.extract_topics (libs := sample_libs " {} ")
       "Paper about neural networks and optimization." [] = (Raise e, [])) /\
  (forall v,
     json_loads (Collaborators := sample_libs " {} ") (Py.strip " {} ") = Ok v ->
     (forall items, v <> JList items) ->
     Analyzer.extract_topics (libs := sample_libs " {} ")
       "Paper about neural networks and optimization." [] =
     (Raise (ValueError "openai did not return a list of topics"), [])) /\
  (forall items,
     json_loads (Collaborators := sample_libs " {} ") (Py.strip " {} ")
       = Ok (JList items) ->
     Analyzer.extract_topics (libs := sample_libs " {} ")
       "Paper about neural networks and optimization." [] = (Ok items, [])).
Proof.
  split; [reflexivity|].
  exact (extract_topics_rejects (libs := sample_libs " {} ")
           "Paper about neural networks and optimization." " {} " [] [] []
           eq_refl).
Defined.

(** The two replies of the specification's tests, with a parser that
    rejects the first and reads the second as an object. *)
Example reply_not_json_raises :
  Analyzer.extract_topics (libs := sample_libs "not json")
    "Paper about neural networks and optimization." [] =
  (Raise (JSONDecodeError "Expecting value: line 1 column 1 (char 0)"), []).
Proof. reflexivity. Qed.

Example reply_object_raises :
  Analyzer.extract_topics (libs := sample_libs "{}")
    "Paper about neural networks and optimization." [] =
  (Raise (ValueError "openai did not return a list of topics"), []).
Proof. reflexivity. Qed.

Lemma node_weights_witness :
  Analyzer.create_graph_data "paper.pdf" sample_topics [] = Ok (sample_graph, []) /\
  (exists main rest,
     nodes sample_graph = main :: rest /\ node_group main = "main" /\
     node_val main = 20%Z) /\
  (forall n, In n (nodes sample_graph) -> node_group n = "main" ->
     node_val n = 20%Z) /\
  (forall n, In n (nodes sample_graph) -> node_group n = "topic" ->
     exists d i,
       In d sample_topics /\ topic d = Some (node_name n) /\
       importance d = Some i /\ node_val n = (i * 2)%Z) /\
  (forall n, In n (nodes sample_graph) -> node_group n = "subtopic" ->
     exists d sd i,
       In d sample_topics /\ In sd (get (subtopics d) []) /\
       topic sd = Some (node_name n) /\ importance sd = Some i /\
       node_val n = i) /\
  (forall d, In d sample_topics ->
     exists nm i,
       topic d = Some nm /\ importance d = Some i /\
       In {| node_id := "topic_" ++ nm; node_name := nm;
             node_val := (i * 2)%Z; node_group := "topic" |}
          (nodes sample_graph)) /\
  (forall d sd, In d sample_topics -> In sd (get (subtopics d) []) ->
     exists pn nm i,
       topic d = Some pn /\ topic sd = Some nm /\ importance sd = Some i /\
       In {| node_id := "subtopic_" ++ ("topic_" ++ pn) ++ "_" ++ nm;
             node_name := nm; node_val := i; node_group := "subtopic" |}
          (nodes sample_graph)).
Proof.
  split; [exact sample_graph_created|].
  exact (node_weights "paper.pdf" sample_topics [] [] sample_graph
           sample_graph_created).
Defined.

Lemma link_weights_witness :
  Analyzer.create_graph_data "paper.pdf" sample_topics [] = Ok (sample_graph, []) /\
  nth_error (links sample_graph) 1 =
    Some {| link_source := "topic_neural networks";
            link_target :=
              "subtopic_topic_neural networks_convolutional neural networks in image processing";
            link_value := 8 |} /\
  exists n : node,
    nth_error (nodes sample_graph) 2 = Some n /\
    "subtopic_topic_neural networks_convolutional neural networks in image processing"
      = node_id n /\
    ((node_group n = "topic" /\ "topic_neural networks" = "main" /\
      exists d,
        In d sample_topics /\ topic d = Some (node_name n) /\
        importance d = Some 8%Z)
     \/
     (node_group n = "subtopic" /\
      exists d sd pn,
        In d sample_topics /\ In sd (get (subtopics d) []) /\
        topic d = Some pn /\ "topic_neural networks" = "topic_" ++ pn /\
        topic sd = Some (node_name n) /\
        importance sd = Some 8%Z)).
Proof.
  split; [exact sample_graph_created|]. split; [reflexivity|].
  exact (link_weights "paper.pdf" sample_topics [] [] sample_graph
           sample_graph_created 1 _ eq_refl).
Defined.

Lemma missing_fields_get_sentinels_witness :
  well_texted entry_without_title = true /\
  exists p : paper,
    Analyzer.parse_entry entry_without_title "neural networks" = Ok p /\
    (forall related_papers,
       Analyzer.add_entries [entry_without_title] "neural networks" related_papers =
       (related_papers ++ [p])%list) /\
    paper_topic p = "neural networks" /\
    (ET.find (ET.atom "id") entry_without_title = None ->
       paper_id p = "id not found") /\
    (ET.find (ET.atom "title") entry_without_title = None ->
       paper_title p = "title not found") /\
    (ET.find (ET.atom "summary") entry_without_title = None ->
       summary p = "no abstract available") /\
    (ET.find (ET.atom "published") entry_without_title = None ->
       published p = "date not available").
Proof.
  split; [reflexivity|].
  exact (missing_fields_get_sentinels entry_without_title "neural networks" eq_refl).
Defined.

(** The entry without a title, parsed. *)
Example entry_without_title_parsed :
  Analyzer.parse_entry entry_without_title "neural networks" =
  Ok {| paper_id := "2101.00001v1"; paper_title := "title not found";
        summary := "We study gradient methods."; published := "2021-01-04";
        authors := ["A. Author"]; paper_topic := "neural networks" |}.
Proof. reflexivity. Qed.

(** A title element that is there without text is another matter: the entry
    is skipped. *)
Example entry_with_empty_title_skipped :
  Analyzer.parse_entry entry_with_empty_title "neural networks" =
    Raise (AttributeError "'NoneType' object has no attribute 'strip'") /\
  Analyzer.add_entries [entry_with_empty_title] "neural networks" [] = [].
Proof. split; reflexivity. Qed.

Lemma main_node_name_witness :
  Analyzer.create_graph_data "paper.pdf" sample_topics [] = Ok (sample_graph, []) /\
  exists (main : node) (rest : list node),
    nodes sample_graph = main :: rest /\
    node_id main = "main" /\ node_group main = "main" /\
    ((String.length "paper.pdf" <= 50)%nat -> node_name main = "paper.pdf") /\
    ((50 < String.length "paper.pdf")%nat ->
       exists head tail,
         "paper.pdf" = head ++ tail /\ String.length head = 50%nat /\
         head = Py.slice_to 50 "paper.pdf" /\
         node_name main = head ++ "...").
Proof.
  split; [exact sample_graph_created|].
  exact (main_node_name "paper.pdf" sample_topics [] [] sample_graph
           sample_graph_created).
Defined.

(** A title of 65 characters is cut to 50 and marked. *)
Example long_title_truncated :
  exists g,
    Analyzer.create_graph_data
      "01234567890123456789012345678901234567890123456789012345678901234"
      [] [] = Ok (g, []) /\
    map node_name (nodes g) =
      ["01234567890123456789012345678901234567890123456789..."].
Proof. eexists. split; reflexivity. Qed.

(** * The rest of the code *)

(** ** [extract_text_from_pdf] *)

Lemma append_empty_r (s : string) : s ++ EmptyString = s.
Proof. induction s as [|c s IH]; simpl; [reflexivity|now rewrite IH]. Qed.

Lemma firstn_min_length {A : Type} (n : nat) (l : list A) :
  firstn (Nat.min (List.length l) n) l = firstn n l.
Proof.
  destruct (Nat.le_gt_cases (List.length l) n) as [H|H].
  - rewrite Nat.min_l by assumption.
    now rewrite firstn_all, firstn_all2.
  - rewrite Nat.min_r by lia. reflexivity.
Qed.

Lemma fold_left_page_texts (pages : list (result string)) :
  forall text : string,
    fold_left
      (fun text page =>
         match page with
         | Ok page_text => text ++ page_text
         | Raise _ => text
         end)
      pages text = text ++ page_texts pages.
Proof.
  induction pages as [|page pages IH]; intros text; simpl.
  - now rewrite append_empty_r.
  - rewrite IH. destruct page as [t|e]; [|reflexivity].
    now rewrite append_assoc.
Qed.

Lemma not_blank_has_char (s : string) :
  Py.strip s <> EmptyString ->
  exists before c after, s = before ++ String c after /\ Py.isspace c = false.
Proof.
  intros H.
  destruct (strip_trims s) as [lead [trail [Hs [_ [_ [Hfirst _]]]]]].
  destruct (Py.strip s) as [|c rest]; [contradiction|].
  exists lead, c, (rest ++ trail). split; [exact Hs|].
  now apply (Hfirst c rest).
Qed.

Section ExtractText.

Context {World : Type} {libs : Collaborators World}.

Lemma extract_text_from_pdf_pages (pdf_file : list Byte.byte)
  (pages : list (result string)) :
  PdfReader pdf_file = Ok pages ->
  Analyzer.extract_text_from_pdf pdf_file =
  if String.eqb (Py.strip (page_texts (firstn 10 pages))) EmptyString
  then Raise (ValueError "no text could be extracted from the pdf")
  else Ok (page_texts (firstn 10 pages)).
Proof.
  intros H. unfold Analyzer.extract_text_from_pdf. rewrite H. simpl.
  now rewrite firstn_min_length, fold_left_page_texts.
Qed.

(** X1.  The text [extract_text_from_pdf] returns is the text of the first
    10 pages, the pages whose extraction raises left out, and it is never
    blank: it has a character that is not whitespace. *)
Theorem extracted_text_not_blank (pdf_file : list Byte.byte) (text : string) :
  Analyzer.extract_text_from_pdf pdf_file = Ok text ->
  exists pages,
    PdfReader pdf_file = Ok pages /\
    text = page_texts (firstn 10 pages) /\
    exists before c after,
      text = before ++ String c after /\ Py.isspace c = false.
Proof.
  intros H.
  destruct (PdfReader pdf_file) as [pages|e] eqn:Hread.
  - rewrite (extract_text_from_pdf_pages _ _ Hread) in H.
    destruct (String.eqb_spec (Py.strip (page_texts (firstn 10 pages))) EmptyString)
      as [Hblank|Hblank]; [discriminate|].
    injection H as <-. exists pages. repeat split.
    now apply not_blank_has_char.
  - unfold Analyzer.extract_text_from_pdf in H. rewrite Hread in H. discriminate.
Qed.

(** X2.  [extract_text_from_pdf] raises only the reader's own exception or,
    when the first 10 pages give nothing but whitespace, its ValueError: an
    exception of a page's extraction never leaves the function. *)
Theorem extract_text_from_pdf_errors (pdf_file : list Byte.byte) (e : exn) :
  Analyzer.extract_text_from_pdf pdf_file = Raise e ->
  PdfReader pdf_file = Raise e \/
  (e = ValueError "no text could be extracted from the pdf" /\
   exists pages,
     PdfReader pdf_file = Ok pages /\
     Py.strip (page_texts (firstn 10 pages)) = EmptyString).
Proof.
  intros H.
  destruct (PdfReader pdf_file) as [pages|e'] eqn:Hread.
  - rewrite (extract_text_from_pdf_pages _ _ Hread) in H. right.
    destruct (String.eqb_spec (Py.strip (page_texts (firstn 10 pages))) EmptyString)
      as [Hblank|Hblank]; [|discriminate].
    injection H as <-. eauto.
  - unfold Analyzer.extract_text_from_pdf in H. rewrite Hread in H.
    simpl in H. injection H as <-. now left.
Qed.

(** X3.  Pages after the tenth are never read: two files whose first 10
    pages agree give the same outcome. *)
Theorem later_pages_ignored (a b : list Byte.byte)
  (pages_a pages_b : list (result string)) :
  PdfReader a = Ok pages_a ->
  PdfReader b = Ok pages_b ->
  firstn 10 pages_a = firstn 10 pages_b ->
  Analyzer.extract_text_from_pdf a = Analyzer.extract_text_from_pdf b.
Proof.
  intros Ha Hb H.
  rewrite (extract_text_from_pdf_pages _ _ Ha), (extract_text_from_pdf_pages _ _ Hb).
  now rewrite H.
Qed.

End ExtractText.

(** ** [extract_topics] *)

Lemma slice_to_append (n : nat) :
  forall s extra : string,
    (n <= String.length s)%nat ->
    Py.slice_to n (s ++ extra) = Py.slice_to n s.
Proof.
  induction n as [|n IH]; intros s extra H; simpl; [reflexivity|].
  destruct s as [|c s]; simpl in *; [lia|].
  rewrite IH by lia. reflexivity.
Qed.

Section ExtractTopics.

Context {World : Type} {libs : Collaborators World}.

(** X4.  Only the first 4000 characters of the text reach the model: what
    follows them changes nothing. *)
Theorem text_after_4000_ignored (text : string) :
  (4000 <= String.length text)%nat ->
  forall (extra : string) (w : World),
    Analyzer.extract_topics (text ++ extra) w = Analyzer.extract_topics text w.
Proof.
  intros H extra w. unfold Analyzer.extract_topics.
  now rewrite slice_to_append.
Qed.

(** X5.  [extract_topics] returns a list exactly when the model's first
    choice has a text that, stripped, the JSON parser reads as a list, and
    then it returns that list; whether it returns or raises, the model has
    been called once and nothing else. *)
Theorem extract_topics_returns (text : string) (items : list topic_dict)
  (w w' : World) :
  (Analyzer.extract_topics text w = (Ok items, w') <->
   exists reply others,
     chat_completions_create Analyzer.model (Py.slice_to 4000 text) w =
       (Ok (Some reply :: others), w') /\
     json_loads (Py.strip reply) = Ok (JList items)) /\
  snd (Analyzer.extract_topics text w) =
  snd (chat_completions_create Analyzer.model (Py.slice_to 4000 text) w).
Proof.
  unfold Analyzer.extract_topics, try_except, bindM, lift, ret, raise.
  destruct (chat_completions_create Analyzer.model (Py.slice_to 4000 text) w)
    as [[choices|e] w1] eqn:Hcall; simpl.
  - destruct choices as [|[reply|] others]; simpl.
    + split; [|reflexivity]. split; [discriminate|].
      intros [reply [others [H _]]]. discriminate.
    + destruct (json_loads (Py.strip reply)) as [v|e] eqn:Hjson; simpl.
      * destruct v; simpl; (split; [|reflexivity]); split;
          try discriminate;
          try (intros [reply' [others' [H1 H2]]]; injection H1 as <- <- <-;
               rewrite Hjson in H2; discriminate).
        -- intros H. injection H as <- <-. eauto.
        -- intros [reply' [others' [H1 H2]]]. injection H1 as <- <- <-.
           rewrite Hjson in H2. now injection H2 as <-.
      * split; [|reflexivity]. split; [discriminate|].
        intros [reply' [others' [H1 H2]]]. injection H1 as <- <- <-.
        rewrite Hjson in H2. discriminate.
    + split; [|reflexivity]. split; [discriminate|].
      intros [reply [others' [H _]]]. discriminate.
  - split; [|reflexivity]. split; [discriminate|].
    intros [reply [others [H _]]]. discriminate.
Qed.

End ExtractTopics.

(** ** Splitting and joining *)

Lemma split_nonempty (sep : ascii) (s : string) : Py.split sep s <> [].
Proof.
  destruct s as [|c s]; simpl; [discriminate|].
  destruct (Ascii.eqb c sep); [discriminate|].
  destruct (Py.split sep s); discriminate.
Qed.

(** Joining the pieces of a split gives the string back. *)
Lemma split_join (sep : ascii) (s : string) : join sep (Py.split sep s) = s.
Proof.
  induction s as [|c s IH]; [reflexivity|].
  pose proof (split_nonempty sep s) as Hne. simpl.
  destruct (Ascii.eqb c sep) eqn:Hc.
  - apply Ascii.eqb_eq in Hc as ->.
    destruct (Py.split sep s) as [|piece pieces]; [contradiction|].
    change (String sep (join sep (piece :: pieces)) = String sep s).
    now rewrite IH.
  - destruct (Py.split sep s) as [|piece pieces]; [contradiction|].
    destruct pieces as [|piece' pieces]; simpl in *; now rewrite IH.
Qed.

Lemma split_no_sep (sep : ascii) (s : string) :
  Forall (fun piece => has_char sep piece = false) (Py.split sep s).
Proof.
  induction s as [|c s IH]; simpl.
  - repeat constructor.
  - destruct (Ascii.eqb c sep) eqn:Hc.
    + constructor; [reflexivity|assumption].
    + destruct (Py.split sep s) as [|piece pieces]; [repeat constructor|].
      * simpl. now rewrite Hc.
      * apply Forall_cons_iff in IH as [Hp Hps].
        constructor; [|assumption]. simpl. now rewrite Hc.
Qed.

Lemma last_In {A : Type} (l : list A) (d : A) : l <> [] -> In (last l d) l.
Proof.
  induction l as [|x l IH]; [contradiction|]. intros _.
  destruct l as [|y l]; [now left|].
  right. apply IH. discriminate.
Qed.

Lemma join_last (sep : ascii) (pieces : list string) :
  pieces <> [] ->
  exists prefix,
    join sep pieces = prefix ++ last pieces EmptyString /\
    (prefix = EmptyString \/ exists p, prefix = p ++ String sep EmptyString).
Proof.
  induction pieces as [|x pieces IH]; [contradiction|]. intros _.
  destruct pieces as [|y pieces].
  - exists EmptyString. auto.
  - destruct IH as [prefix [Hjoin Hprefix]]; [discriminate|].
    exists (x ++ String sep prefix). split.
    + change (x ++ String sep (join sep (y :: pieces)) =
              (x ++ String sep prefix) ++ last (y :: pieces) EmptyString).
      rewrite Hjoin, append_assoc. reflexivity.
    + right. destruct Hprefix as [->|[p ->]].
      * now exists x.
      * exists (x ++ String sep p). now rewrite append_assoc.
Qed.

Lemma join_hd (sep : ascii) (pieces : list string) :
  exists rest,
    join sep pieces = hd EmptyString pieces ++ rest /\
    (rest = EmptyString \/ exists r, rest = String sep r).
Proof.
  destruct pieces as [|x [|y pieces]].
  - exists EmptyString. auto.
  - exists EmptyString. simpl. rewrite append_empty_r. auto.
  - exists (String sep (join sep (y :: pieces))). split; [reflexivity|eauto].
Qed.

(** [s.split(sep)[-1]] is the end of [s] after its last separator. *)
Lemma last_segment (sep : ascii) (s : string) :
  has_char sep (last (Py.split sep s) EmptyString) = false /\
  exists prefix,
    s = prefix ++ last (Py.split sep s) EmptyString /\
    (prefix = EmptyString \/ exists p, prefix = p ++ String sep EmptyString).
Proof.
  pose proof (split_nonempty sep s) as Hne. split.
  - pose proof (split_no_sep sep s) as H. rewrite Forall_forall in H.
    apply H. now apply last_In.
  - destruct (join_last sep _ Hne) as [prefix [Hjoin Hprefix]].
    rewrite split_join in Hjoin. eauto.
Qed.

(** [s.split(sep)[0]] is the start of [s] before its first separator. *)
Lemma first_segment (sep : ascii) (s : string) :
  has_char sep (hd EmptyString (Py.split sep s)) = false /\
  exists rest,
    s = hd EmptyString (Py.split sep s) ++ rest /\
    (rest = EmptyString \/ exists r, rest = String sep r).
Proof.
  pose proof (split_nonempty sep s) as Hne. split.
  - pose proof (split_no_sep sep s) as H.
    destruct (Py.split sep s) as [|piece pieces]; [contradiction|].
    now apply Forall_cons_iff in H as [H _].
  - destruct (join_hd sep (Py.split sep s)) as [rest [Hjoin Hrest]].
    rewrite split_join in Hjoin. eauto.
Qed.

(** ** [find_related_papers]: what an entry is parsed into *)

Lemma strip_trimmed (s : string) : trimmed (Py.strip s).
Proof.
  destruct (strip_trims s) as [lead [trail [_ [_ [_ [Hfirst Hlast]]]]]].
  split; assumption.
Qed.

Lemma fixed_by_strip_trimmed (s : string) : Py.strip s = s -> trimmed s.
Proof. intros H. rewrite <- H. apply strip_trimmed. Qed.

Lemma authors_loop_names (author_elements : list ET.Element) :
  forall authors names : list string,
    for_in author_elements
      (fun author authors =>
         match ET.find (ET.atom "name") author with
         | Some elem =>
             let? name := Analyzer.text_then "strip" Py.strip elem in
             Ok (authors ++ [name])%list
         | None => Ok authors
         end)
      authors = Ok names ->
    names =
    (authors
     ++ flat_map
          (fun author =>
             match ET.find (ET.atom "name") author with
             | Some elem =>
                 match ET.text elem with
                 | Some t => [Py.strip t]
                 | None => []
                 end
             | None => []
             end)
          author_elements)%list.
Proof.
  induction author_elements as [|author rest IH]; simpl; intros authors names H.
  - injection H as <-. now rewrite app_nil_r.
  - destruct (ET.find (ET.atom "name") author) as [elem|]; simpl in H.
    + unfold Analyzer.text_then in H.
      destruct (ET.text elem) as [t|]; simpl in H; [|discriminate].
      apply IH in H. rewrite H, <- app_assoc. reflexivity.
    + now apply IH in H.
Qed.

Lemma authors_loop_raises (author_elements : list ET.Element) :
  forallb (text_present (ET.atom "name")) author_elements = false ->
  forall authors : list string,
    for_in author_elements
      (fun author authors =>
         match ET.find (ET.atom "name") author with
         | Some elem =>
             let? name := Analyzer.text_then "strip" Py.strip elem in
             Ok (authors ++ [name])%list
         | None => Ok authors
         end)
      authors =
    Raise (AttributeError "'NoneType' object has no attribute 'strip'").
Proof.
  induction author_elements as [|author rest IH]; simpl; intros H authors;
    [discriminate|].
  unfold text_present in H at 1. unfold Analyzer.text_then.
  destruct (ET.find (ET.atom "name") author) as [elem|]; simpl in *.
  - destruct (ET.text elem) as [t|]; simpl in *; [now apply IH|reflexivity].
  - now apply IH.
Qed.

(** What a parsed entry's fields come from. *)
Lemma parse_entry_Ok_inv (entry : ET.Element) (topic_name : string) (p : paper) :
  Analyzer.parse_entry entry topic_name = Ok p ->
  match ET.find (ET.atom "id") entry with
  | Some elem =>
      exists t, ET.text elem = Some t /\
                paper_id p = last (Py.split "/" t) EmptyString
  | None => paper_id p = "id not found"
  end /\
  match ET.find (ET.atom "title") entry with
  | Some elem => exists t, ET.text elem = Some t /\ paper_title p = Py.strip t
  | None => paper_title p = "title not found"
  end /\
  match ET.find (ET.atom "summary") entry with
  | Some elem => exists t, ET.text elem = Some t /\ summary p = Py.strip t
  | None => summary p = "no abstract available"
  end /\
  match ET.find (ET.atom "published") entry with
  | Some elem =>
      exists t, ET.text elem = Some t /\
                published p = hd EmptyString (Py.split "T" t)
  | None => published p = "date not available"
  end /\
  authors p = named_authors entry /\
  paper_topic p = topic_name.
Proof.
  unfold Analyzer.parse_entry, Analyzer.text_then, named_authors. cbv zeta.
  destruct (ET.find (ET.atom "id") entry) as [e1|];
    [destruct (ET.text e1); [|discriminate]|];
  (destruct (ET.find (ET.atom "title") entry) as [e2|];
    [destruct (ET.text e2); [|discriminate]|]);
  (destruct (ET.find (ET.atom "summary") entry) as [e3|];
    [destruct (ET.text e3); [|discriminate]|]);
  (destruct (ET.find (ET.atom "published") entry) as [e4|];
    [destruct (ET.text e4); [|discriminate]|]);
  simpl;
  (match goal with
   | |- context [for_in ?l ?f ?a] => destruct (for_in l f a) as [names|e] eqn:Hloop
   end; simpl; [|discriminate]);
  intros H; injection H as <-; simpl;
  apply authors_loop_names in Hloop; simpl in Hloop;
  repeat split; eauto.
Qed.

(** X8.  The id of a parsed entry has no slash in it: it is the sentinel,
    or what follows the last slash of the id element's text. *)
Theorem paper_id_is_last_segment (entry : ET.Element) (topic_name : string)
  (p : paper) :
  Analyzer.parse_entry entry topic_name = Ok p ->
  has_char "/" (paper_id p) = false /\
  (forall elem t,
     ET.find (ET.atom "id") entry = Some elem -> ET.text elem = Some t ->
     exists prefix,
       t = prefix ++ paper_id p /\
       (prefix = EmptyString \/ exists q, prefix = q ++ "/")).
Proof.
  intros H. apply parse_entry_Ok_inv in H as [Hid _].
  destruct (ET.find (ET.atom "id") entry) as [elem|].
  - destruct Hid as [t [Ht ->]].
    destruct (last_segment "/" t) as [Hnone Hprefix]. split; [assumption|].
    intros elem' t' Helem Ht'. injection Helem as <-.
    rewrite Ht in Ht'. injection Ht' as <-. exact Hprefix.
  - rewrite Hid. split; [reflexivity|]. intros elem t Helem. discriminate.
Qed.

(** X9.  The published date of a parsed entry has no "T" in it: it is the
    sentinel, or what precedes the first "T" of the element's text. *)
Theorem published_is_date_part (entry : ET.Element) (topic_name : string)
  (p : paper) :
  Analyzer.parse_entry entry topic_name = Ok p ->
  has_char "T" (published p) = false /\
  (forall elem t,
     ET.find (ET.atom "published") entry = Some elem -> ET.text elem = Some t ->
     exists rest,
       t = published p ++ rest /\
       (rest = EmptyString \/ exists r, rest = String "T" r)).
Proof.
  intros H. apply parse_entry_Ok_inv in H as [_ [_ [_ [Hpub _]]]].
  destruct (ET.find (ET.atom "published") entry) as [elem|].
  - destruct Hpub as [t [Ht ->]].
    destruct (first_segment "T" t) as [Hnone Hrest]. split; [assumption|].
    intros elem' t' Helem Ht'. injection Helem as <-.
    rewrite Ht in Ht'. injection Ht' as <-. exact Hrest.
  - rewrite Hpub. split; [reflexivity|]. intros elem t Helem. discriminate.
Qed.

(** X10.  The title, the summary and the author names of a parsed entry
    neither start nor end with whitespace; the authors are the names of the
    author elements that have a name, in document order (an author element
    without a name adds nothing). *)
Theorem parsed_texts_trimmed (entry : ET.Element) (topic_name : string)
  (p : paper) :
  Analyzer.parse_entry entry topic_name = Ok p ->
  trimmed (paper_title p) /\ trimmed (summary p) /\
  authors p = named_authors entry /\
  Forall trimmed (authors p).
Proof.
  intros H.
  apply parse_entry_Ok_inv in H as [_ [Htitle [Hsummary [_ [Hauthors _]]]]].
  split; [|split; [|split; [assumption|]]].
  - destruct (ET.find (ET.atom "title") entry) as [elem|].
    + destruct Htitle as [t [_ ->]]. apply strip_trimmed.
    + rewrite Htitle. now apply fixed_by_strip_trimmed.
  - destruct (ET.find (ET.atom "summary") entry) as [elem|].
    + destruct Hsummary as [t [_ ->]]. apply strip_trimmed.
    + rewrite Hsummary. now apply fixed_by_strip_trimmed.
  - rewrite Hauthors. unfold named_authors. apply Forall_forall.
    intros a Ha. apply in_flat_map in Ha as [author [_ Ha]].
    destruct (ET.find (ET.atom "name") author) as [elem|]; [|contradiction].
    destruct (ET.text elem) as [t|]; [|contradiction].
    destruct Ha as [<-|[]]. apply strip_trimmed.
Qed.

(** X11.  An entry in which an id, title, summary, published or author-name
    element is there without text is skipped: parsing it raises an
    AttributeError and the list of papers stays as it was. *)
Theorem entry_without_text_skipped (entry : ET.Element) (topic_name : string) :
  well_texted entry = false ->
  (exists msg,
     Analyzer.parse_entry entry topic_name = Raise (AttributeError msg)) /\
  (forall related_papers,
     Analyzer.add_entries [entry] topic_name related_papers = related_papers).
Proof.
  intros H.
  assert (Hparse : exists msg,
             Analyzer.parse_entry entry topic_name = Raise (AttributeError msg)).
  { revert H.
    unfold well_texted, text_present, Analyzer.parse_entry, Analyzer.text_then.
    cbv zeta.
    destruct (ET.find (ET.atom "id") entry) as [e1|];
      [destruct (ET.text e1)|];
    (destruct (ET.find (ET.atom "title") entry) as [e2|];
      [destruct (ET.text e2)|]);
    (destruct (ET.find (ET.atom "summary") entry) as [e3|];
      [destruct (ET.text e3)|]);
    (destruct (ET.find (ET.atom "published") entry) as [e4|];
      [destruct (ET.text e4)|]);
    simpl; intros H; try (eexists; reflexivity);
    rewrite (authors_loop_raises _ H); eexists; reflexivity. }
  split; [exact Hparse|].
  intros related_papers. destruct Hparse as [msg Hparse].
  unfold Analyzer.add_entries. simpl. now rewrite Hparse.
Qed.

(** ** [find_related_papers]: missing names and the tags of the papers *)

Lemma names_comprehension_raises (ds : list topic_dict) :
  forallb has_name ds = false ->
  comprehension (fun d => getitem "topic" (topic d)) ds = Raise (KeyError "topic").
Proof.
  induction ds as [|d ds IH]; simpl; intros H; [discriminate|].
  unfold has_name in H at 1.
  destruct (topic d) as [n|]; simpl in *; [|reflexivity].
  now rewrite (IH H).
Qed.

Lemma subtopic_names_loop_raises (topics : list topic_dict) :
  forallb has_name topics = true ->
  forallb named_topic topics = false ->
  forall all_topics : list string,
    for_in topics
      (fun t all_topics =>
         let? names :=
           comprehension (fun subtopic => getitem "topic" (topic subtopic))
                         (get (subtopics t) []) in
         Ok (all_topics ++ names)%list)
      all_topics = Raise (KeyError "topic").
Proof.
  induction topics as [|t topics IH]; simpl; intros Hnames H all_topics;
    [discriminate|].
  apply andb_true_iff in Hnames as [Ht Hts].
  unfold named_topic in H at 1. rewrite Ht in H. simpl in H.
  destruct (forallb has_name (get (subtopics t) [])) eqn:Hsubs; simpl in H.
  - rewrite (names_comprehension _ Hsubs). simpl. now apply IH.
  - now rewrite (names_comprehension_raises _ Hsubs).
Qed.

Lemma all_topics_of_unnamed (topics : list topic_dict) :
  forallb named_topic topics = false ->
  Analyzer.all_topics_of topics = Raise (KeyError "topic").
Proof.
  intros H. unfold Analyzer.all_topics_of.
  destruct (forallb has_name topics) eqn:Hnames.
  - rewrite (names_comprehension _ Hnames). simpl.
    now apply subtopic_names_loop_raises.
  - now rewrite (names_comprehension_raises _ Hnames).
Qed.

Lemma parsed_entries_topic (topic_name : string) (entries : list ET.Element)
  (p : paper) :
  In p (parsed_entries topic_name entries) -> paper_topic p = topic_name.
Proof.
  unfold parsed_entries. intros H.
  apply in_flat_map in H as [entry [_ H]].
  destruct (Analyzer.parse_entry entry topic_name) as [p'|e] eqn:Hparse;
    [|contradiction].
  destruct H as [<-|[]].
  now apply parse_entry_Ok_inv in Hparse as [_ [_ [_ [_ [_ Htopic]]]]].
Qed.

Section SearchTags.

Context {World : Type} {libs : Collaborators World}.

Lemma query_papers_topic (topic_name : string) (reply : result Response)
  (p : paper) :
  In p (query_papers topic_name reply) -> paper_topic p = topic_name.
Proof.
  unfold query_papers. destruct reply as [response|e]; [|contradiction].
  destruct (status_code response =? 200)%Z; [|contradiction].
  destruct (ET_fromstring (response_text response)) as [root|e]; [|contradiction].
  apply parsed_entries_topic.
Qed.

Lemma contributions_topic (queries : list string)
  (replies : list (result Response)) (p : paper) :
  In p (contributions queries replies) -> In (paper_topic p) queries.
Proof.
  unfold contributions. intros H.
  apply in_concat in H as [papers [Hpapers Hp]].
  apply in_map_iff in Hpapers as [[q reply] [<- Hqr]]. simpl in Hp.
  apply query_papers_topic in Hp as ->.
  now apply in_combine_l in Hqr.
Qed.

(** X6.  When a topic or one of its subtopics has no 'topic' key,
    [find_related_papers] raises KeyError('topic') before it sends any
    request: the world is as it was. *)
Theorem find_related_papers_missing_name (topics : list topic_dict) (w : World) :
  forallb named_topic topics = false ->
  Analyzer.find_related_papers topics w = (Raise (KeyError "topic"), w).
Proof.
  intros H. unfold Analyzer.find_related_papers, bindM, lift.
  now rewrite (all_topics_of_unnamed topics H).
Qed.

(** X7.  Every paper [find_related_papers] returns is tagged with one of
    the queries: its 'topic' is the name of a topic or of a subtopic of the
    input. *)
Theorem returned_papers_tagged (topics : list topic_dict) (w w' : World)
  (papers : list paper) :
  Analyzer.find_related_papers topics w = (Ok papers, w') ->
  forall p, In p papers -> In (paper_topic p) (flatten topics).
Proof.
  intros H p Hp.
  unfold Analyzer.find_related_papers, bindM, lift in H.
  destruct (forallb named_topic topics) eqn:Hnamed.
  - rewrite (all_topics_of_flatten topics Hnamed) in H.
    rewrite search_all_contributions in H. injection H as <- _.
    simpl in Hp. now apply contributions_topic in Hp.
  - rewrite (all_topics_of_unnamed topics Hnamed) in H. discriminate.
Qed.

End SearchTags.

(** ** The query in the request URL *)








(** ** [create_graph_data]: when it returns, and the shape of the graph *)

Lemma comprehension_Raise {A B : Type} (f : A -> result B) (xs : list A) (e : exn) :
  comprehension f xs = Raise e -> exists x, In x xs /\ f x = Raise e.
Proof.
  induction xs as [|x xs IH]; simpl; [discriminate|].
  destruct (f x) as [y|e'] eqn:Hx; simpl.
  - destruct (comprehension f xs) as [ys|e'']; simpl; [discriminate|].
    intros H. injection H as ->.
    destruct (IH eq_refl) as [x' [Hin Hx']]. eauto.
  - intros H. injection H as ->. eauto.
Qed.

Lemma read_subtopic_Raise (d : topic_dict) (e : exn) :
  read_subtopic d = Raise e ->
  e = KeyError "topic" \/ e = KeyError "importance".
Proof.
  unfold read_subtopic. destruct d as [[n|] [i|] ss]; simpl; intros H;
    try discriminate; injection H as <-; auto.
Qed.

Lemma read_topic_Raise (d : topic_dict) (e : exn) :
  read_topic d = Raise e ->
  e = KeyError "topic" \/ e = KeyError "importance".
Proof.
  unfold read_topic. destruct d as [[n|] [i|] ss]; simpl; intros H;
    try (injection H as <-; now auto).
  destruct (comprehension read_subtopic (get ss [])) as [subs|e'] eqn:Hsubs;
    simpl in H; [discriminate|].
  injection H as ->.
  apply comprehension_Raise in Hsubs as [sd [_ Hsd]].
  now apply read_subtopic_Raise in Hsd.
Qed.

Lemma read_subtopics_have_keys (subs : list topic_dict) (items : list Subtopic) :
  Forall2 (fun x y => read_subtopic x = Ok y) subs items ->
  forallb has_keys subs = true.
Proof.
  induction 1 as [|d s subs items Hd _ IH]; simpl; [reflexivity|].
  apply read_subtopic_Ok in Hd as [Hn Hi].
  unfold has_keys at 1. now rewrite Hn, Hi.
Qed.

Lemma read_topics_valid (topics : list topic_dict) (ts : list Topic) :
  Forall2 (fun x y => read_topic x = Ok y) topics ts ->
  forallb valid_topic topics = true.
Proof.
  induction 1 as [|d t topics ts Hd _ IH]; simpl; [reflexivity|].
  apply read_topic_Ok in Hd as [Hn [Hi Hsubs]].
  apply andb_true_iff. split; [|assumption].
  unfold valid_topic. apply andb_true_iff. split.
  - unfold has_keys. now rewrite Hn, Hi.
  - apply (read_subtopics_have_keys _ _ Hsubs).
Qed.

(** X13.  [create_graph_data] returns exactly when every topic, and every
    subtopic of a topic, has its 'topic' and 'importance' keys; otherwise
    it raises the KeyError of the first key it misses, and no graph. *)
Theorem create_graph_data_needs_keys (title : string) (topics : list topic_dict)
  (papers : list paper) :
  (forallb valid_topic topics = true <->
   exists g, Analyzer.create_graph_data title topics papers = Ok (g, papers)) /\
  (forallb valid_topic topics = false ->
   Analyzer.create_graph_data title topics papers = Raise (KeyError "topic") \/
   Analyzer.create_graph_data title topics papers = Raise (KeyError "importance")).
Proof.
  assert (Hok : forall g ps,
             Analyzer.create_graph_data title topics papers = Ok (g, ps) ->
             forallb valid_topic topics = true).
  { intros g ps H. apply create_graph_data_Ok in H as [ts [Hts _]].
    apply comprehension_Forall2 in Hts. now apply (read_topics_valid _ ts). }
  split; [split|].
  - intros H. destruct (valid_topics_read topics H) as [ts Hts].
    eexists. exact (create_graph_data_read title topics papers ts Hts).
  - intros [g H]. now apply (Hok g papers).
  - intros H. unfold Analyzer.create_graph_data.
    rewrite for_in_add_topic.
    destruct (comprehension read_topic topics) as [ts|e] eqn:Hts; simpl.
    + apply comprehension_Forall2 in Hts.
      rewrite (read_topics_valid _ _ Hts) in H. discriminate.
    + apply comprehension_Raise in Hts as [d [_ Hd]].
      apply read_topic_Raise in Hd as [->| ->]; auto.
Qed.

(** X14.  [create_graph_data] hands the related papers back as it got them
    (same papers, same order), and the graph does not depend on them. *)
Theorem related_papers_pass_through (title : string) (topics : list topic_dict)
  (papers papers' : list paper) (g : graph) :
  Analyzer.create_graph_data title topics papers = Ok (g, papers') ->
  papers' = papers /\
  forall others : list paper,
    Analyzer.create_graph_data title topics others = Ok (g, others).
Proof.
  intros H.
  apply create_graph_data_Ok in H as [ts [Hts [Hnodes [Hlinks Hpapers]]]].
  split; [assumption|]. intros others.
  rewrite (create_graph_data_read title topics others ts Hts).
  destruct g as [ns ls]. simpl in *. now subst.
Qed.

(** X15.  A graph [create_graph_data] returns is a tree rooted at the main
    node: one link less than nodes, exactly one node of group "main", every
    node of group "main", "topic" or "subtopic", and every link going from
    the main node or from a topic node of the graph to a node of the graph
    that is not the main node. *)
Theorem graph_is_tree (title : string) (topics : list topic_dict)
  (papers papers' : list paper) (g : graph) :
  Analyzer.create_graph_data title topics papers = Ok (g, papers') ->
  S (List.length (links g)) = List.length (nodes g) /\
  List.length (filter is_main (nodes g)) = 1%nat /\
  (forall n, In n (nodes g) ->
     node_group n = "main" \/ node_group n = "topic" \/ node_group n = "subtopic") /\
  (forall l, In l (links g) ->
     (exists n, In n (nodes g) /\ node_id n = link_source l /\
                (node_group n = "main" \/ node_group n = "topic")) /\
     (exists n, In n (nodes g) /\ node_id n = link_target l /\
                node_group n <> "main")).
Proof.
  intros H.
  apply create_graph_data_Ok in H as [ts [_ [Hnodes [Hlinks _]]]].
  rewrite Hnodes, Hlinks. split; [|split; [|split]].
  - simpl. now rewrite length_topic_nodes, length_topic_links.
  - simpl. now rewrite no_main_among_topic_nodes.
  - intros n Hn.
    apply in_graph_nodes in Hn as [->|[[t [_ ->]]|[t [s [_ [_ ->]]]]]]; auto.
  - intros l Hl.
    apply in_graph_links in Hl as [[t [Ht ->]]|[t [s [Ht [Hs ->]]]]]; split.
    + exists (main_node title). split; [now left|]. auto.
    + exists (topic_node t). split; [|split; [reflexivity|discriminate]].
      apply in_graph_nodes. eauto.
    + exists (topic_node t). split; [|auto].
      apply in_graph_nodes. eauto.
    + exists (subtopic_node (topic_id t) s).
      split; [|split; [reflexivity|discriminate]].
      apply in_graph_nodes. right. right. eauto.
Qed.

Lemma read_topics_node_names (topics : list topic_dict) (ts : list Topic) :
  Forall2 (fun x y => read_topic x = Ok y) topics ts ->
  map node_name (flat_map topic_nodes ts) =
  flat_map (fun d => (topic_names [d] ++ topic_names (get (subtopics d) []))%list)
           topics.
Proof.
  induction 1 as [|d t topics ts Hd _ IH]; [reflexivity|].
  apply read_topic_Ok in Hd as [Hn [_ Hsubs]].
  cbn [flat_map]. rewrite map_app, IH. f_equal.
  rewrite (read_subtopics_names _ _ Hsubs).
  unfold topic_names at 1. cbn [flat_map]. rewrite Hn. simpl.
  now rewrite map_map.
Qed.

(** X16.  The nodes come in input order: after the main node, each topic's
    node is followed by the nodes of its subtopics, then the next topic. *)
Theorem nodes_in_input_order (title : string) (topics : list topic_dict)
  (papers papers' : list paper) (g : graph) :
  Analyzer.create_graph_data title topics papers = Ok (g, papers') ->
  map node_name (nodes g) =
  Analyzer.short_title_of title
    :: flat_map
         (fun d => (topic_names [d] ++ topic_names (get (subtopics d) []))%list)
         topics.
Proof.
  intros H.
  apply create_graph_data_Ok in H as [ts [Hts [Hnodes _]]].
  apply comprehension_Forall2 in Hts.
  rewrite Hnodes. simpl. now rewrite (read_topics_node_names topics ts).
Qed.

Lemma length_append (a b : string) :
  String.length (a ++ b) = (String.length a + String.length b)%nat.
Proof. induction a as [|c a IH]; simpl; [reflexivity|now rewrite IH]. Qed.

Lemma length_slice_to (n : nat) :
  forall s : string,
    String.length (Py.slice_to n s) = Nat.min n (String.length s).
Proof.
  induction n as [|n IH]; intros s; simpl; [reflexivity|].
  destruct s as [|c s]; simpl; [reflexivity|]. now rewrite IH.
Qed.

(** X17.  The display name of the main node never has more than 53
    characters: the length of the title when that is at most 50, and 53
    otherwise. *)
Theorem display_name_length (title : string) (topics : list topic_dict)
  (papers papers' : list paper) (g : graph) :
  Analyzer.create_graph_data title topics papers = Ok (g, papers') ->
  exists main rest,
    nodes g = main :: rest /\
    (String.length (node_name main) <= 53)%nat /\
    String.length (node_name main) =
      (if (50 <? String.length title)%nat then 53 else String.length title)%nat.
Proof.
  intros H.
  apply create_graph_data_Ok in H as [ts [_ [Hnodes _]]].
  exists (main_node title), (flat_map topic_nodes ts).
  split; [assumption|]. unfold main_node, Analyzer.short_title_of. cbn [node_name].
  destruct (50 <? String.length title)%nat eqn:Hlen.
  - apply Nat.ltb_lt in Hlen.
    rewrite length_append, length_slice_to. simpl String.length. lia.
  - apply Nat.ltb_ge in Hlen. lia.
Qed.

(** ** The endpoint: which failures reach the caller, and the stages *)

Lemma substring_skip (p : string) :
  forall (s : string) (m : nat),
    substring (String.length p) m (p ++ s) = substring 0 m s.
Proof. induction p as [|c p IH]; intros s m; simpl; [reflexivity|apply IH]. Qed.

Lemma substring_all (s : string) : substring 0 (String.length s) s = s.
Proof. induction s as [|c s IH]; simpl; [reflexivity|now rewrite IH]. Qed.

Lemma slice_then_substring (k : nat) :
  forall (s : string) (m : nat),
    (k + m = String.length s)%nat ->
    s = Py.slice_to k s ++ substring k m s.
Proof.
  induction k as [|k IH]; intros s m H; simpl in *.
  - subst m. now rewrite substring_all.
  - destruct s as [|c s]; simpl in *; [discriminate|].
    rewrite <- (IH s m) by lia. reflexivity.
Qed.

(** [s.endswith(suffix)] holds exactly when [s] is some text followed by
    [suffix]. *)
Lemma endswith_spec (s suffix : string) :
  Py.endswith s suffix = true <-> exists prefix, s = prefix ++ suffix.
Proof.
  unfold Py.endswith. split.
  - intros H. apply andb_true_iff in H as [Hlen Heq].
    apply Nat.leb_le in Hlen. apply String.eqb_eq in Heq.
    exists (Py.slice_to (String.length s - String.length suffix) s).
    rewrite <- Heq at 2. apply slice_then_substring. lia.
  - intros [prefix ->]. rewrite length_append. apply andb_true_iff. split.
    + apply Nat.leb_le. lia.
    + replace (String.length prefix + String.length suffix - String.length suffix)%nat
        with (String.length prefix) by lia.
      rewrite substring_skip, substring_all. apply String.eqb_refl.
Qed.


Section EndpointStages.

Context {World : Type} {libs : Collaborators World}.

Lemma extract_text_from_pdf_Ok_not_blank (pdf_file : list Byte.byte) (text : string) :
  Analyzer.extract_text_from_pdf pdf_file = Ok text ->
  String.eqb (Py.strip text) EmptyString = false.
Proof.
  intros H.
  destruct (PdfReader pdf_file) as [pages|e] eqn:Hread.
  - rewrite (extract_text_from_pdf_pages _ _ Hread) in H.
    destruct (String.eqb (Py.strip (page_texts (firstn 10 pages))) EmptyString)
      eqn:Hblank; [discriminate|].
    injection H as <-. exact Hblank.
  - unfold Analyzer.extract_text_from_pdf in H. rewrite Hread in H. discriminate.
Qed.

(** X18.  A file whose name is not some text followed by ".pdf" (in lower
    case) is rejected with status 400, and nothing has run: the world is
    as it was. *)
Theorem wrong_file_type_rejected (file : UploadFile) (w : World) :
  (forall prefix, filename file <> prefix ++ ".pdf") ->
  Main.analyze_paper file w =
    (Raise (HTTPException 400 "Only PDF files are accepted"), w) /\
  is_client_error (HTTPException 400 "Only PDF files are accepted") = true.
Proof.
  intros H. split; [|reflexivity].
  apply analyze_paper_wrong_type.
  destruct (Py.endswith (filename file) ".pdf") eqn:Hends; [|reflexivity].
  apply endswith_spec in Hends as [prefix Hprefix]. now destruct (H prefix).
Qed.


(** X20.  When the endpoint returns, the name ended in ".pdf", the file had
    at most 10 MiB, every stage returned in turn (text, a list of topics
    that is not empty, related papers, graph), the response is the graph
    and the papers of the search, and the graph has the main node, named
    after the file, and at least one more node and one link. *)
Theorem analyze_paper_returns (file : UploadFile) (w w' : World) (g : graph)
  (papers : list paper) :
  Main.analyze_paper file w = (Ok (g, papers), w') ->
  Py.endswith (filename file) ".pdf" = true /\
  (Z.of_nat (List.length (contents file)) <= 10 * 1024 * 1024)%Z /\
  (exists text topics w1,
     Analyzer.extract_text_from_pdf (contents file) = Ok text /\
     Analyzer.extract_topics text w = (Ok topics, w1) /\
     topics <> [] /\
     Analyzer.find_related_papers topics w1 = (Ok papers, w') /\
     Analyzer.create_graph_data (filename file) topics papers = Ok (g, papers)) /\
  (exists rest,
     nodes g = main_node (filename file) :: rest /\ rest <> []) /\
  links g <> [].
Proof.
  unfold Main.analyze_paper, try_except, bindM, lift, raise, ret. intros H.
  destruct (Py.endswith (filename file) ".pdf") eqn:Hname;
    cbv beta iota delta [negb] in H; [|discriminate].
  destruct (10 * 1024 * 1024 <? Z.of_nat (List.length (contents file)))%Z eqn:Hsize;
    cbv beta iota in H; [discriminate|].
  destruct (Analyzer.extract_text_from_pdf (contents file)) as [text|e] eqn:Htext;
    cbv beta iota in H; [|discriminate].
  destruct (String.eqb (Py.strip text) EmptyString);
    cbv beta iota in H; [discriminate|].
  destruct (Analyzer.extract_topics text w) as [[topics|e] w1] eqn:Htopics;
    cbv beta iota in H; [|discriminate].
  destruct topics as [|t topics]; cbv beta iota in H; [discriminate|].
  destruct (Analyzer.find_related_papers (t :: topics) w1) as [[related|e] w2]
    eqn:Hsearch; cbv beta iota in H; [|discriminate].
  destruct (Analyzer.create_graph_data (filename file) (t :: topics) related)
    as [[g' papers']|e] eqn:Hgraph; cbv beta iota in H; [|discriminate].
  injection H as <- <- <-.
  pose proof Hgraph as Hshape.
  apply create_graph_data_Ok in Hshape as [ts [Hts [Hnodes [Hlinks ->]]]].
  apply Z.ltb_ge in Hsize.
  split; [reflexivity|]. split; [assumption|]. split.
  { exists text, (t :: topics), w1. repeat split; auto. discriminate. }
  apply comprehension_Forall2 in Hts.
  destruct ts as [|t' ts]; [inversion Hts|].
  rewrite Hnodes, Hlinks. split.
  - eexists. split; [reflexivity|]. discriminate.
  - discriminate.
Qed.

(** X21.  The stages as the endpoint runs them for a PDF of at most 10 MiB
    whose text was extracted: the topics are always asked for (the
    endpoint's own check for empty text cannot fire, since
    [extract_text_from_pdf] does not return blank text); an empty list of
    topics ends the request before any search; a failure of a stage ends it
    with the world that stage left. *)
Theorem analyze_paper_stages (file : UploadFile) (text : string) (w : World) :
  Py.endswith (filename file) ".pdf" = true ->
  (Z.of_nat (List.length (contents file)) <= 10 * 1024 * 1024)%Z ->
  Analyzer.extract_text_from_pdf (contents file) = Ok text ->
  Main.analyze_paper file w =
  match Analyzer.extract_topics text w with
  | (Raise e, w1) => (Raise (HTTPException 500 (str_exn e)), w1)
  | (Ok [], w1) =>
      (Raise (HTTPException 500
                (str_exn (HTTPException 500 "Could not extract topics from the paper"))),
       w1)
  | (Ok topics, w1) =>
      match Analyzer.find_related_papers topics w1 with
      | (Raise e, w2) => (Raise (HTTPException 500 (str_exn e)), w2)
      | (Ok related_papers, w2) =>
          match Analyzer.create_graph_data (filename file) topics related_papers with
          | Ok response => (Ok response, w2)
          | Raise e => (Raise (HTTPException 500 (str_exn e)), w2)
          end
      end
  end.
Proof.
  intros Hname Hsize Htext.
  unfold Main.analyze_paper, try_except, bindM, lift, raise, ret.
  rewrite Hname. cbv beta iota delta [negb].
  apply Z.ltb_ge in Hsize. rewrite Hsize, Htext.
  rewrite (extract_text_from_pdf_Ok_not_blank _ _ Htext). cbv beta iota.
  destruct (Analyzer.extract_topics text w) as [[topics|e] w1]; [|reflexivity].
  destruct topics as [|t topics]; [reflexivity|].
  destruct (Analyzer.find_related_papers (t :: topics) w1) as [[related|e] w2];
    [|reflexivity].
  destruct (Analyzer.create_graph_data (filename file) (t :: topics) related)
    as [response|e]; reflexivity.
Qed.

End EndpointStages.

(** ** The further properties at work *)

Lemma extracted_text_not_blank_witness :
  Analyzer.extract_text_from_pdf (libs := sample_libs "[]") [] =
    Ok "Paper about neural networks and optimization." /\
  exists pages,
    PdfReader (Collaborators := sample_libs "[]") [] = Ok pages /\
    "Paper about neural networks and optimization." = page_texts (firstn 10 pages) /\
    exists before c after,
      "Paper about neural networks and optimization." = before ++ String c after /\
      Py.isspace c = false.
Proof.
  split; [reflexivity|].
  exact (extracted_text_not_blank (libs := sample_libs "[]") [] _ eq_refl).
Defined.

Lemma extract_text_from_pdf_errors_witness :
  Analyzer.extract_text_from_pdf (libs := paged_libs) [Byte.x00; Byte.x20] =
    Raise (ValueError "no text could be extracted from the pdf") /\
  (PdfReader (Collaborators := paged_libs) [Byte.x00; Byte.x20] =
     Raise (ValueError "no text could be extracted from the pdf") \/
   (ValueError "no text could be extracted from the pdf" =
      ValueError "no text could be extracted from the pdf" /\
    exists pages,
      PdfReader (Collaborators := paged_libs) [Byte.x00; Byte.x20] = Ok pages /\
      Py.strip (page_texts (firstn 10 pages)) = EmptyString)).
Proof.
  split; [reflexivity|].
  exact (extract_text_from_pdf_errors (libs := paged_libs)
           [Byte.x00; Byte.x20] _ eq_refl).
Defined.

Lemma later_pages_ignored_witness :
  PdfReader (Collaborators := paged_libs) ten_pages = Ok (repeat (Ok "a") 10) /\
  PdfReader (Collaborators := paged_libs) twelve_pages =
    Ok (repeat (Ok "a") 10 ++ [Ok "b"; Ok "c"])%list /\
  firstn 10 (repeat (Ok "a") 10) =
    firstn 10 (repeat (Ok "a") 10 ++ [Ok "b"; Ok "c"])%list /\
  Analyzer.extract_text_from_pdf (libs := paged_libs) ten_pages =
  Analyzer.extract_text_from_pdf (libs := paged_libs) twelve_pages.
Proof.
  split; [reflexivity|]. split; [reflexivity|]. split; [reflexivity|].
  exact (later_pages_ignored (libs := paged_libs) ten_pages twelve_pages
           _ _ eq_refl eq_refl eq_refl).
Defined.

Lemma long_text_length : (4000 <= String.length long_text)%nat.
Proof. apply Nat.leb_le. vm_compute. reflexivity. Defined.

Lemma text_after_4000_ignored_witness :
  (4000 <= String.length long_text)%nat /\
  forall (extra : string) (w : list string),
    Analyzer.extract_topics (libs := sample_libs "[]") (long_text ++ extra) w =
    Analyzer.extract_topics (libs := sample_libs "[]") long_text w.
Proof.
  split; [exact long_text_length|].
  exact (text_after_4000_ignored (libs := sample_libs "[]") long_text
           long_text_length).
Defined.

Lemma find_related_papers_missing_name_witness :
  forallb named_topic [Dict None (Some 3%Z) None] = false /\
  Analyzer.find_related_papers (libs := sample_libs "[]")
    [Dict None (Some 3%Z) None] [] = (Raise (KeyError "topic"), []).
Proof.
  split; [reflexivity|].
  exact (find_related_papers_missing_name (libs := sample_libs "[]")
           [Dict None (Some 3%Z) None] [] eq_refl).
Defined.

Lemma three_queries_searched :
  Analyzer.find_related_papers (libs := sample_libs "[]") three_queries [] =
  (Ok three_queries_papers, three_queries_world).
Proof. reflexivity. Defined.

Lemma returned_papers_tagged_witness :
  Analyzer.find_related_papers (libs := sample_libs "[]") three_queries [] =
    (Ok three_queries_papers, three_queries_world) /\
  forall p, In p three_queries_papers -> In (paper_topic p) (flatten three_queries).
Proof.
  split; [exact three_queries_searched|].
  exact (returned_papers_tagged (libs := sample_libs "[]") three_queries []
           three_queries_world three_queries_papers three_queries_searched).
Defined.

Lemma entry_without_title_is_parsed :
  Analyzer.parse_entry entry_without_title "neural networks" = Ok paper_without_title.
Proof. reflexivity. Defined.

Lemma paper_id_is_last_segment_witness :
  Analyzer.parse_entry entry_without_title "neural networks" = Ok paper_without_title /\
  has_char "/" (paper_id paper_without_title) = false /\
  (forall elem t,
     ET.find (ET.atom "id") entry_without_title = Some elem ->
     ET.text elem = Some t ->
     exists prefix,
       t = prefix ++ paper_id paper_without_title /\
       (prefix = EmptyString \/ exists q, prefix = q ++ "/")).
Proof.
  split; [exact entry_without_title_is_parsed|].
  exact (paper_id_is_last_segment entry_without_title "neural networks"
           paper_without_title entry_without_title_is_parsed).
Defined.

Lemma published_is_date_part_witness :
  Analyzer.parse_entry entry_without_title "neural networks" = Ok paper_without_title /\
  has_char "T" (published paper_without_title) = false /\
  (forall elem t,
     ET.find (ET.atom "published") entry_without_title = Some elem ->
     ET.text elem = Some t ->
     exists rest,
       t = published paper_without_title ++ rest /\
       (rest = EmptyString \/ exists r, rest = String "T" r)).
Proof.
  split; [exact entry_without_title_is_parsed|].
  exact (published_is_date_part entry_without_title "neural networks"
           paper_without_title entry_without_title_is_parsed).
Defined.

Lemma parsed_texts_trimmed_witness :
  Analyzer.parse_entry entry_without_title "neural networks" = Ok paper_without_title /\
  trimmed (paper_title paper_without_title) /\
  trimmed (summary paper_without_title) /\
  authors paper_without_title = named_authors entry_without_title /\
  Forall trimmed (authors paper_without_title).
Proof.
  split; [exact entry_without_title_is_parsed|].
  exact (parsed_texts_trimmed entry_without_title "neural networks"
           paper_without_title entry_without_title_is_parsed).
Defined.

Lemma entry_without_text_skipped_witness :
  well_texted entry_with_empty_title = false /\
  (exists msg,
     Analyzer.parse_entry entry_with_empty_title "neural networks" =
     Raise (AttributeError msg)) /\
  (forall related_papers,
     Analyzer.add_entries [entry_with_empty_title] "neural networks" related_papers =
     related_papers).
Proof.
  split; [reflexivity|].
  exact (entry_without_text_skipped entry_with_empty_title "neural networks" eq_refl).
Defined.

Lemma related_papers_pass_through_witness :
  Analyzer.create_graph_data "paper.pdf" sample_topics [] = Ok (sample_graph, []) /\
  [] = @nil paper /\
  forall others : list paper,
    Analyzer.create_graph_data "paper.pdf" sample_topics others =
    Ok (sample_graph, others).
Proof.
  split; [exact sample_graph_created|].
  exact (related_papers_pass_through "paper.pdf" sample_topics [] [] sample_graph
           sample_graph_created).
Defined.

Lemma graph_is_tree_witness :
  Analyzer.create_graph_data "paper.pdf" sample_topics [] = Ok (sample_graph, []) /\
  S (List.length (links sample_graph)) = List.length (nodes sample_graph) /\
  List.length (filter is_main (nodes sample_graph)) = 1%nat /\
  (forall n, In n (nodes sample_graph) ->
     node_group n = "main" \/ node_group n = "topic" \/ node_group n = "subtopic") /\
  (forall l, In l (links sample_graph) ->
     (exists n, In n (nodes sample_graph) /\ node_id n = link_source l /\
                (node_group n = "main" \/ node_group n = "topic")) /\
     (exists n, In n (nodes sample_graph) /\ node_id n = link_target l /\
                node_group n <> "main")).
Proof.
  split; [exact sample_graph_created|].
  exact (graph_is_tree "paper.pdf" sample_topics [] [] sample_graph
           sample_graph_created).
Defined.

Lemma nodes_in_input_order_witness :
  Analyzer.create_graph_data "paper.pdf" sample_topics [] = Ok (sample_graph, []) /\
  map node_name (nodes sample_graph) =
  Analyzer.short_title_of "paper.pdf"
    :: flat_map
         (fun d => (topic_names [d] ++ topic_names (get (subtopics d) []))%list)
         sample_topics.
Proof.
  split; [exact sample_graph_created|].
  exact (nodes_in_input_order "paper.pdf" sample_topics [] [] sample_graph
           sample_graph_created).
Defined.

Lemma display_name_length_witness :
  Analyzer.create_graph_data "paper.pdf" sample_topics [] = Ok (sample_graph, []) /\
  exists main rest,
    nodes sample_graph = main :: rest /\
    (String.length (node_name main) <= 53)%nat /\
    String.length (node_name main) =
      (if (50 <? String.length "paper.pdf")%nat
       then 53 else String.length "paper.pdf")%nat.
Proof.
  split; [exact sample_graph_created|].
  exact (display_name_length "paper.pdf" sample_topics [] [] sample_graph
           sample_graph_created).
Defined.

Lemma upper_case_is_not_pdf :
  forall prefix, filename upper_case_upload <> prefix ++ ".pdf".
Proof.
  intros prefix H.
  assert (E : Py.endswith (filename upper_case_upload) ".pdf" = true)
    by (apply endswith_spec; eauto).
  discriminate E.
Defined.

Lemma wrong_file_type_rejected_witness :
  (forall prefix, filename upper_case_upload <> prefix ++ ".pdf") /\
  Main.analyze_paper (libs := sample_libs "[]") upper_case_upload [] =
    (Raise (HTTPException 400 "Only PDF files are accepted"), []) /\
  is_client_error (HTTPException 400 "Only PDF files are accepted") = true.
Proof.
  split; [exact upper_case_is_not_pdf|].
  exact (wrong_file_type_rejected (libs := sample_libs "[]") upper_case_upload []
           upper_case_is_not_pdf).
Defined.


Lemma small_upload_answered :
  Main.analyze_paper (libs := pipeline_libs) small_upload [] =
  (Ok (fst small_upload_response, snd small_upload_response), small_upload_world).
Proof. reflexivity. Defined.

Lemma analyze_paper_returns_witness :
  Main.analyze_paper (libs := pipeline_libs) small_upload [] =
    (Ok (fst small_upload_response, snd small_upload_response), small_upload_world) /\
  Py.endswith (filename small_upload) ".pdf" = true /\
  (Z.of_nat (List.length (contents small_upload)) <= 10 * 1024 * 1024)%Z /\
  (exists text topics w1,
     Analyzer.extract_text_from_pdf (libs := pipeline_libs) (contents small_upload)
       = Ok text /\
     Analyzer.extract_topics (libs := pipeline_libs) text [] = (Ok topics, w1) /\
     topics <> [] /\
     Analyzer.find_related_papers (libs := pipeline_libs) topics w1 =
       (Ok (snd small_upload_response), small_upload_world) /\
     Analyzer.create_graph_data (filename small_upload) topics
       (snd small_upload_response) =
       Ok (fst small_upload_response, snd small_upload_response)) /\
  (exists rest,
     nodes (fst small_upload_response) = main_node (filename small_upload) :: rest /\
     rest <> []) /\
  links (fst small_upload_response) <> [].
Proof.
  split; [exact small_upload_answered|].
  exact (analyze_paper_returns (libs := pipeline_libs) small_upload []
           small_upload_world (fst small_upload_response)
           (snd small_upload_response) small_upload_answered).
Defined.

Lemma small_upload_size :
  (Z.of_nat (List.length (contents small_upload)) <= 10 * 1024 * 1024)%Z.
Proof. simpl. lia. Defined.

Lemma analyze_paper_stages_witness :
  Py.endswith (filename small_upload) ".pdf" = true /\
  (Z.of_nat (List.length (contents small_upload)) <= 10 * 1024 * 1024)%Z /\
  Analyzer.extract_text_from_pdf (libs := pipeline_libs) (contents small_upload) =
    Ok "Paper about neural networks and optimization." /\
  Main.analyze_paper (libs := pipeline_libs) small_upload [] =
  match Analyzer.extract_topics (libs := pipeline_libs)
          "Paper about neural networks and optimization." [] with
  | (Raise e, w1) =>
      (Raise (HTTPException 500 (str_exn (Collaborators := pipeline_libs) e)), w1)
  | (Ok [], w1) =>
      (Raise (HTTPException 500
                (str_exn (Collaborators := pipeline_libs)
                   (HTTPException 500 "Could not extract topics from the paper"))),
       w1)
  | (Ok topics, w1) =>
      match Analyzer.find_related_papers (libs := pipeline_libs) topics w1 with
      | (Raise e, w2) =>
          (Raise (HTTPException 500 (str_exn (Collaborators := pipeline_libs) e)), w2)
      | (Ok related_papers, w2) =>
          match Analyzer.create_graph_data (filename small_upload) topics
                  related_papers with
          | Ok response => (Ok response, w2)
          | Raise e =>
              (Raise (HTTPException 500 (str_exn (Collaborators := pipeline_libs) e)),
               w2)
          end
      end
  end.
Proof.
  split; [reflexivity|]. split; [exact small_upload_size|]. split; [reflexivity|].
  exact (analyze_paper_stages (libs := pipeline_libs) small_upload
           "Paper about neural networks and optimization." []
           eq_refl small_upload_size eq_refl).
Defined.

(** An empty list of topics ends the request with a 500 before any search:
    no URL has been requested. *)
Example no_topics_no_search :
  Main.analyze_paper (libs := sample_libs "[]") small_upload [] =
  (Raise (HTTPException 500 "Could not extract topics from the paper"), []).
Proof. reflexivity. Qed.
